(** * fabric.agent: the orchestration core of [fabric_core.py]

    A shallow embedding of the claim store ([Claim], [MemoryVault]), of the
    prompt assembly of [Agent.run] and of the request pipeline of
    [AgentFabric], together with the properties of the design document that
    concern them.

    Conventions of the embedding.
    - A Python [str] is a [string]; a character is an [ascii], read as a code
      point below 256.
    - A [Dict[str, Any]] of beacons is a [gmap string PyVal]: the code only
      looks keys up in it and tests all of its items, so that the order of its
      entries cannot be observed.
    - Every other dictionary ([slices], the two registries, the two mappings
      of the trace) is an insertion-ordered dictionary [odict]: [Agent.run]
      renders the slices in the order of [slices.items()], and a gatekeeper
      strategy may iterate the agent registry.
    - A method that may mutate [self] returns the new [self].
    - A registry holds the value of a vault at the time it was registered:
      the properties below are about one vault or about one request, during
      which no vault changes. *)

From Stdlib Require Import String Ascii ZArith List Bool Lia.
From stdpp Require Import base option list gmap strings.

(** ** Python values and primitives *)

Module Py.

(** The scalar values a beacon can carry ([Any] in the source). *)
Inductive PyVal : Type :=
  | VNone : PyVal
  | VBool : bool -> PyVal
  | VInt : Z -> PyVal
  | VStr : string -> PyVal.

(** Python's [==] on these values. [bool] is a subclass of [int], so that
    [True == 1] and [False == 0] hold. *)
Definition py_eq (a b : PyVal) : bool :=
  match a, b with
  | VNone, VNone => true
  | VBool x, VBool y => Bool.eqb x y
  | VInt x, VInt y => Z.eqb x y
  | VBool x, VInt y => Z.eqb (Z.b2z x) y
  | VInt x, VBool y => Z.eqb x (Z.b2z y)
  | VStr x, VStr y => String.eqb x y
  | _, _ => false
  end.

(** [l[start:]], with CPython's adjustment of the start index: a negative
    index counts from the end, and the result is clamped to [0 .. len l]. *)
Definition slice_from {A : Type} (start : Z) (l : list A) : list A :=
  let len := Z.of_nat (length l) in
  let start' :=
    if (start <? 0)%Z
    then (if (start + len <? 0)%Z then 0%Z else (start + len)%Z)
    else (if (len <=? start)%Z then len else start) in
  drop (Z.to_nat start') l.

(** [sep.join(parts)]. *)
Fixpoint join (sep : string) (parts : list string) : string :=
  match parts with
  | [] => EmptyString
  | [p] => p
  | p :: rest => p +:+ sep +:+ join sep rest
  end.

(** [str.isspace] on one character below 256. *)
Definition isspace (c : ascii) : bool :=
  let n := nat_of_ascii c in
  ((9 <=? n) && (n <=? 13)) || ((28 <=? n) && (n <=? 32))
  || (n =? 133) || (n =? 160).

Fixpoint lstrip (s : string) : string :=
  match s with
  | EmptyString => EmptyString
  | String c s' => if isspace c then lstrip s' else s
  end.

Fixpoint rstrip (s : string) : string :=
  match s with
  | EmptyString => EmptyString
  | String c s' =>
      match rstrip s' with
      | EmptyString => if isspace c then EmptyString else String c EmptyString
      | r => String c r
      end
  end.

(** [s.strip()]. *)
Definition strip (s : string) : string := rstrip (lstrip s).

(** The line feed and the double quote. *)
Definition nl : string := String (ascii_of_nat 10) EmptyString.
Definition dquote : string := String (ascii_of_nat 34) EmptyString.

(** *** Insertion-ordered dictionaries with [str] keys *)

Definition odict (V : Type) : Type := list (string * V).

Definition keys {V : Type} (d : odict V) : list string := d.*1.

(** [d.get(k)] / [d[k]]. *)
Fixpoint get {V : Type} (d : odict V) (k : string) : option V :=
  match d with
  | [] => None
  | (k', v) :: d' => if decide (k' = k) then Some v else get d' k
  end.

(** [d[k] = v]: an existing key keeps its position, a new key goes last. *)
Fixpoint set {V : Type} (d : odict V) (k : string) (v : V) : odict V :=
  match d with
  | [] => [(k, v)]
  | (k', v') :: d' =>
      if decide (k' = k) then (k', v) :: d' else (k', v') :: set d' k v
  end.

(** [k in d]. *)
Definition contains {V : Type} (d : odict V) (k : string) : bool :=
  match get d k with Some _ => true | None => false end.

(** [str.isalnum] on one character below 256; with the underscore these
    are the characters the pattern [\w] matches. *)
Definition isalnum (c : ascii) : bool :=
  let n := nat_of_ascii c in
  ((48 <=? n) && (n <=? 57)) || ((65 <=? n) && (n <=? 90))
  || ((97 <=? n) && (n <=? 122)) || (n =? 170)
  || ((178 <=? n) && (n <=? 179)) || (n =? 181)
  || ((185 <=? n) && (n <=? 186)) || ((188 <=? n) && (n <=? 190))
  || ((192 <=? n) && (n <=? 214)) || ((216 <=? n) && (n <=? 246))
  || ((248 <=? n) && (n <=? 255)).

Definition underscore : ascii := ascii_of_nat 95.

(** [re.sub(r'[\W_]+', '_', s)]: every maximal run of characters that are
    not alphanumeric becomes one underscore. [in_run] tells that the
    character before belongs to such a run. *)
Fixpoint sub_runs (in_run : bool) (s : string) : string :=
  match s with
  | EmptyString => EmptyString
  | String c s' =>
      if isalnum c then String c (sub_runs false s')
      else if in_run then sub_runs true s'
      else String underscore (sub_runs true s')
  end.

Definition sub_nonword (s : string) : string := sub_runs false s.

(** [s[:n]]. *)
Fixpoint take_chars (n : nat) (s : string) : string :=
  match n, s with
  | S n', String c s' => String c (take_chars n' s')
  | _, _ => EmptyString
  end.

End Py.

Abbreviation Beacons := (gmap string Py.PyVal).

(** ** Claim *)

Module Claim.

(** [@dataclass class Claim]. The [id] is the one given to the constructor
    (the default factory draws a fresh uuid4 string). *)
Record t : Type := mk {
  content : string;
  beacons : Beacons;
  id : string;
}.

End Claim.

(** ** MemoryVault *)

Module MemoryVault.

Record t : Type := mk {
  id : string;
  _claims : list Claim.t;
}.

(** [MemoryVault(vault_id)]. *)
Definition init (vault_id : string) : t := {| id := vault_id; _claims := [] |}.

(** [self._claims.append(claim)]. *)
Definition add_claim (self : t) (claim : Claim.t) : t :=
  {| id := id self; _claims := _claims self ++ [claim] |}.

(** [item in d.items()]: the key is present and its value equals the
    item's under [==]. *)
Definition item_in_items (item : string * Py.PyVal) (d : Beacons) : bool :=
  match d !! item.1 with
  | Some found => Py.py_eq found item.2
  | None => false
  end.

(** [all(item in claim.beacons.items() for item in beacon_query.items())]. *)
Definition beacon_match (beacon_query : Beacons) (claim : Claim.t) : bool :=
  forallb (fun item => item_in_items item (Claim.beacons claim))
          (map_to_list beacon_query).

(** [get_slice]: the comprehension, then [matches[-max_claims:]]. The method
    returns the list together with [self]. *)
Definition get_slice (self : t) (beacon_query : Beacons) (max_claims : Z)
  : list Claim.t * t :=
  let matches := List.filter (beacon_match beacon_query) (_claims self) in
  (Py.slice_from (- max_claims) matches, self).

(** The default [max_claims = 5]. *)
Definition default_max_claims : Z := 5.

End MemoryVault.

(** ** The generation collaborator *)

(** [llm_call]. [generate prompt] stands for the text of
    [model.generate_content(prompt)], [None] when the call raises. What
    [llm_call] prints on a failure is not part of the model. *)
Definition llm_call (generate : string -> option string) (prompt : string)
  : string :=
  match generate prompt with
  | Some text => Py.strip text
  | None => "[Error: LLM call failed.]"
  end.

(** ** Agent *)

Module Agent.

Record t : Type := mk {
  id : string;
  role : string;
  vault_ids : list string;
}.

(** The inner loop of [run]: one line per claim of a slice. *)
Definition add_claims (context : string) (claims : list Claim.t) : string :=
  fold_left (fun ctx claim => ctx +:+ "- " +:+ Claim.content claim +:+ Py.nl)
            claims context.

(** The body of the outer loop of [run], for one item of [slices.items()]. *)
Definition add_slice (context : string) (item : string * list Claim.t)
  : string :=
  match item.2 with
  | [] => context
  | _ :: _ =>
      add_claims
        (context +:+ Py.nl +:+ "--- Context from " +:+ item.1 +:+ " ---"
                 +:+ Py.nl)
        item.2
  end.

Definition no_information : string :=
  Py.nl +:+ "--- No relevant information found in memory vaults. ---"
        +:+ Py.nl.

(** The value of [context] when the prompt is formatted. *)
Definition context_of (slices : Py.odict (list Claim.t)) : string :=
  match fold_left add_slice slices EmptyString with
  | EmptyString => no_information
  | context => context
  end.

(** The formatted triple-quoted template. *)
Definition prompt_of (self : t) (query : string)
  (slices : Py.odict (list Claim.t)) : string :=
  Py.nl +:+ "Your Role: " +:+ role self +:+ Py.nl
  +:+ "User's Query: " +:+ Py.dquote +:+ query +:+ Py.dquote +:+ Py.nl
  +:+ "Relevant Information:" +:+ Py.nl
  +:+ context_of slices +:+ Py.nl
  +:+ "Based on your role and the provided information, generate a concise, partial response."
  +:+ Py.nl.

Definition run (generate : string -> option string) (self : t)
  (query : string) (slices : Py.odict (list Claim.t)) : string :=
  llm_call generate (prompt_of self query slices).

End Agent.

(** ** AgentFabric *)

Module AgentFabric.

(** The dictionary kept in [last_trace] during and after a request. *)
Record Trace : Type := mkTrace {
  query : string;
  woken_agents : list Agent.t;
  base_beacons : Beacons;
  slices_per_agent : Py.odict (Py.odict (list Claim.t));
  partial_results : Py.odict string;
}.

(** The fabric. [last_trace] is [None] for the empty dictionary it holds
    before the first request. The three strategies are pure functions that
    return normally, as the design document asks of them. *)
Record t : Type := mk {
  _agents : Py.odict Agent.t;
  _vaults : Py.odict MemoryVault.t;
  gatekeeper_strategy : string -> Py.odict Agent.t -> list Agent.t;
  beacon_strategy : string -> Beacons;
  slice_augmentation_strategy : Agent.t -> Beacons -> Beacons;
  last_trace : option Trace;
}.

(** [AgentFabric(gatekeeper, beacon, augmentation)]. *)
Definition init (gatekeeper : string -> Py.odict Agent.t -> list Agent.t)
  (beacon : string -> Beacons)
  (augmentation : Agent.t -> Beacons -> Beacons) : t :=
  {| _agents := []; _vaults := [];
     gatekeeper_strategy := gatekeeper; beacon_strategy := beacon;
     slice_augmentation_strategy := augmentation; last_trace := None |}.

Definition register_agent (self : t) (agent : Agent.t) : t :=
  {| _agents := Py.set (_agents self) (Agent.id agent) agent;
     _vaults := _vaults self;
     gatekeeper_strategy := gatekeeper_strategy self;
     beacon_strategy := beacon_strategy self;
     slice_augmentation_strategy := slice_augmentation_strategy self;
     last_trace := last_trace self |}.

Definition register_vault (self : t) (vault : MemoryVault.t) : t :=
  {| _agents := _agents self;
     _vaults := Py.set (_vaults self) (MemoryVault.id vault) vault;
     gatekeeper_strategy := gatekeeper_strategy self;
     beacon_strategy := beacon_strategy self;
     slice_augmentation_strategy := slice_augmentation_strategy self;
     last_trace := last_trace self |}.

(** The calls [handle_request] makes to the strategies, to the vaults and
    to the generation collaborator, in the order it makes them. *)
Inductive Call : Type :=
  | CallGatekeeper (query : string)
  | CallBeacon (query : string)
  | CallAugmentation (agent_id : string)
  | CallGetSlice (vault_id : string) (beacon_query : Beacons)
  | CallLlm (prompt : string).

(** The inner loop over [agent.vault_ids]: the state is [slices_for_agent]
    with the calls made so far. [get_slice] leaves the vault as it is, its
    second component is dropped. *)
Definition slice_step (vaults : Py.odict MemoryVault.t)
  (agent_beacons : Beacons)
  (acc : Py.odict (list Claim.t) * list Call) (vault_id : string)
  : Py.odict (list Claim.t) * list Call :=
  match Py.get vaults vault_id with
  | Some vault =>
      (Py.set acc.1 vault_id
         (MemoryVault.get_slice vault agent_beacons
                                MemoryVault.default_max_claims).1,
       acc.2 ++ [CallGetSlice vault_id agent_beacons])
  | None => acc
  end.

Definition collect_slices (vaults : Py.odict MemoryVault.t)
  (agent_beacons : Beacons) (vault_ids : list string)
  : Py.odict (list Claim.t) * list Call :=
  fold_left (slice_step vaults agent_beacons) vault_ids ([], []).

(** The state of the loop over [woken_agents]. *)
Record Loop : Type := mkLoop {
  loop_trace : Trace;
  partial_results_list : list string;
  loop_calls : list Call;
}.

Definition contribution (agent_id partial_result : string) : string :=
  "--- Contribution from " +:+ agent_id +:+ " ---" +:+ Py.nl
  +:+ partial_result.

(** The body of the loop over [woken_agents]. *)
Definition agent_step (generate : string -> option string) (self : t)
  (q : string) (base : Beacons) (st : Loop) (agent : Agent.t) : Loop :=
  let agent_beacons := slice_augmentation_strategy self agent base in
  let collected := collect_slices (_vaults self) agent_beacons
                                  (Agent.vault_ids agent) in
  let slices_for_agent := collected.1 in
  let tr := loop_trace st in
  let partial_result := Agent.run generate agent q slices_for_agent in
  {| loop_trace :=
       {| query := query tr;
          woken_agents := woken_agents tr;
          base_beacons := base_beacons tr;
          slices_per_agent :=
            Py.set (slices_per_agent tr) (Agent.id agent) slices_for_agent;
          partial_results :=
            Py.set (partial_results tr) (Agent.id agent) partial_result |};
     partial_results_list :=
       partial_results_list st
       ++ [contribution (Agent.id agent) partial_result];
     loop_calls :=
       loop_calls st
       ++ [CallAugmentation (Agent.id agent)] ++ collected.2
       ++ [CallLlm (Agent.prompt_of agent q slices_for_agent)] |}.

(** What a request yields: the returned pair, the fabric afterwards and the
    calls made on the way. *)
Record Outcome : Type := mkOutcome {
  response : string;
  trace : Trace;
  fabric : t;
  calls : list Call;
}.

Definition with_last_trace (self : t) (tr : Trace) : t :=
  {| _agents := _agents self; _vaults := _vaults self;
     gatekeeper_strategy := gatekeeper_strategy self;
     beacon_strategy := beacon_strategy self;
     slice_augmentation_strategy := slice_augmentation_strategy self;
     last_trace := Some tr |}.

Definition no_agent_message : string :=
  "No relevant agent could be found to handle this request.".

Definition handle_request (generate : string -> option string) (self : t)
  (q : string) : Outcome :=
  let woken := gatekeeper_strategy self q (_agents self) in
  match woken with
  | [] =>
      let tr := {| query := q; woken_agents := woken; base_beacons := ∅;
                   slices_per_agent := []; partial_results := [] |} in
      {| response := no_agent_message; trace := tr;
         fabric := with_last_trace self tr;
         calls := [CallGatekeeper q] |}
  | _ :: _ =>
      let base := beacon_strategy self q in
      let tr := {| query := q; woken_agents := woken; base_beacons := base;
                   slices_per_agent := []; partial_results := [] |} in
      let st := fold_left (agent_step generate self q base) woken
                  {| loop_trace := tr; partial_results_list := [];
                     loop_calls := [CallGatekeeper q; CallBeacon q] |} in
      {| response := Py.join (Py.nl +:+ Py.nl) (partial_results_list st);
         trace := loop_trace st;
         fabric := with_last_trace self (loop_trace st);
         calls := loop_calls st |}
  end.

(** [re.sub(r'[\W_]+', '_', query)[:50]]. *)
Definition safe_filename (q : string) : string :=
  Py.take_chars 50 (Py.sub_nonword q).

(** [visualize_last_request]: [None] when it declines (no request handled
    yet, or a last query that is empty), otherwise the trace and the file
    name it hands to [generate_visualization] with the fabric. What it
    prints is not part of the model. *)
Definition visualize_last_request (self : t) : option (Trace * string) :=
  match last_trace self with
  | None => None
  | Some tr =>
      match query tr with
      | EmptyString => None
      | String _ _ => Some (tr, "flow_" +:+ safe_filename (query tr))
      end
  end.

End AgentFabric.

(** ** The words of the design document *)

Module Spec.

(** The tags of a claim are a superset of [tag_query]: every key of the
    query is present in the tags with an equal value. *)
Definition tags_superset (tag_query tags : Beacons) : Prop :=
  forall k v, tag_query !! k = Some v ->
    exists w, tags !! k = Some w /\ Py.py_eq w v = true.

(** [subsequence P l m]: [m] is the subsequence of [l] made of the elements
    that satisfy [P], in the order of [l]. *)
Inductive subsequence {A : Type} (P : A -> Prop) : list A -> list A -> Prop :=
  | subsequence_nil : subsequence P [] []
  | subsequence_keep x l m :
      P x -> subsequence P l m -> subsequence P (x :: l) (x :: m)
  | subsequence_skip x l m :
      ~ P x -> subsequence P l m -> subsequence P (x :: l) m.

(** The match sequence of a vault for a query. *)
Definition match_sequence (tag_query : Beacons)
  : list Claim.t -> list Claim.t -> Prop :=
  subsequence (fun c => tags_superset tag_query (Claim.beacons c)).

(** [tail_of n m r]: [r] is the tail of [m] that holds its [n] last
    elements, or all of [m] when it has fewer. *)
Definition tail_of {A : Type} (n : nat) (m r : list A) : Prop :=
  (exists older, m = older ++ r) /\ length r = Nat.min n (length m).

(** The rendering of one slice in a prompt: a header with the vault id, then
    one line per claim's content. *)
Definition render_slice (item : string * list Claim.t) : string :=
  Py.nl +:+ "--- Context from " +:+ item.1 +:+ " ---" +:+ Py.nl
  +:+ fold_right (fun claim lines =>
                    "- " +:+ Claim.content claim +:+ Py.nl +:+ lines)
                 EmptyString item.2.

Definition is_nonempty {A : Type} (l : list A) : bool :=
  match l with [] => false | _ :: _ => true end.

(** The rendering of every non-empty slice, in the order of the mapping. *)
Definition rendering (slices : Py.odict (list Claim.t)) : string :=
  fold_right (fun item rest => render_slice item +:+ rest) EmptyString
             (List.filter (fun item => is_nonempty item.2) slices).

(** A registry is a dictionary: no key occurs twice. *)
Definition is_dict {V : Type} (d : Py.odict V) : Prop := NoDup (Py.keys d).

(** Every character of [s] satisfies [P]. *)
Fixpoint all_chars (P : ascii -> bool) (s : string) : bool :=
  match s with
  | EmptyString => true
  | String c s' => P c && all_chars P s'
  end.

(** No two neighbours in [s] both satisfy [P]; [before] tells that the
    character before [s] satisfies it. *)
Fixpoint no_neighbours (P : ascii -> bool) (before : bool) (s : string)
  : bool :=
  match s with
  | EmptyString => true
  | String c s' => negb (before && P c) && no_neighbours P (P c) s'
  end.

Definition is_underscore (c : ascii) : bool :=
  bool_decide (c = Py.underscore).

(** The shape of a sanitized name: alphanumeric characters and single
    underscores. *)
Definition clean_name (s : string) : bool :=
  all_chars (fun c => Py.isalnum c || is_underscore c) s
  && no_neighbours is_underscore false s.

End Spec.

(** ** The pipeline of a request, agent by agent *)

Module Pipeline.

(** The slice mapping [handle_request] builds for [agent]. *)
Definition slices_of (self : AgentFabric.t) (q : string) (agent : Agent.t)
  : Py.odict (list Claim.t) :=
  (AgentFabric.collect_slices (AgentFabric._vaults self)
     (AgentFabric.slice_augmentation_strategy self agent
        (AgentFabric.beacon_strategy self q))
     (Agent.vault_ids agent)).1.

(** The prompt sent to the generation collaborator for [agent]. *)
Definition prompt_for (self : AgentFabric.t) (q : string) (agent : Agent.t)
  : string :=
  Agent.prompt_of agent q (slices_of self q agent).

(** The labeled contribution of [agent]. *)
Definition contribution_of (generate : string -> option string)
  (self : AgentFabric.t) (q : string) (agent : Agent.t) : string :=
  AgentFabric.contribution (Agent.id agent)
    (llm_call generate (prompt_for self q agent)).

(** The vault ids under which the trace of the request on [q] records a
    slice for the agent id [agent_id]. *)
Definition traced_vault_ids (generate : string -> option string)
  (self : AgentFabric.t) (q : string) (agent_id : string) : list string :=
  match Py.get (AgentFabric.slices_per_agent
                  (AgentFabric.trace
                     (AgentFabric.handle_request generate self q)))
               agent_id with
  | Some slices => Py.keys slices
  | None => []
  end.

(** The trace of a request with a non-empty selection of agents that bear
    pairwise distinct ids. *)
Definition trace_of (generate : string -> option string)
  (self : AgentFabric.t) (q : string) (woken : list Agent.t)
  : AgentFabric.Trace :=
  {| AgentFabric.query := q;
     AgentFabric.woken_agents := woken;
     AgentFabric.base_beacons := AgentFabric.beacon_strategy self q;
     AgentFabric.slices_per_agent :=
       map (fun agent => (Agent.id agent, slices_of self q agent)) woken;
     AgentFabric.partial_results :=
       map (fun agent =>
              (Agent.id agent, llm_call generate (prompt_for self q agent)))
           woken |}.

End Pipeline.

(** ** A billing desk: the scenarios of the design document *)

Module Scenario.

Definition topic (name : string) : Beacons := {[ "topic" := Py.VStr name ]}.

Definition invoice : Claim.t :=
  Claim.mk "Invoices are issued on the first of the month."
           (topic "billing") "c-1".

Definition declined : Claim.t :=
  Claim.mk "The card on file was declined."
           (<[ "urgent" := Py.VBool true ]> (topic "billing")) "c-2".

Definition parcel : Claim.t :=
  Claim.mk "Parcels leave the warehouse within two days."
           (topic "shipping") "c-3".

(** The vault V of the scenario, filled in this order. *)
Definition V : MemoryVault.t :=
  MemoryVault.add_claim
    (MemoryVault.add_claim
       (MemoryVault.add_claim (MemoryVault.init "V1") invoice) declined)
    parcel.

Definition W : MemoryVault.t :=
  MemoryVault.add_claim (MemoryVault.init "V3") parcel.

(** Agent A names the vault V2, which is never registered. *)
Definition A : Agent.t :=
  Agent.mk "A" "You answer billing questions." ["V1"; "V2"].

Definition B : Agent.t :=
  Agent.mk "B" "You answer shipping questions." ["V3"].

(** A second agent that bears the id of [A] and reads another vault. *)
Definition A' : Agent.t :=
  Agent.mk "A" "You answer shipping questions." ["V3"].

(** Strategies: wake every registered agent, in registration order; wake
    nobody. *)
Definition wake_all (q : string) (agents : Py.odict Agent.t) : list Agent.t :=
  agents.*2.

Definition wake_nobody (q : string) (agents : Py.odict Agent.t)
  : list Agent.t := [].

Definition no_beacons (q : string) : Beacons := ∅.

Definition by_role (agent : Agent.t) (base : Beacons) : Beacons :=
  if decide (Agent.id agent = "B") then topic "shipping" else topic "billing".

Definition desk (gatekeeper : string -> Py.odict Agent.t -> list Agent.t)
  : AgentFabric.t :=
  AgentFabric.register_vault
    (AgentFabric.register_vault
       (AgentFabric.register_agent
          (AgentFabric.register_agent
             (AgentFabric.init gatekeeper no_beacons by_role) A) B) V) W.

(** A generator that fails on the prompts of the billing role. *)
Definition billing_is_down (prompt : string) : option string :=
  if String.prefix (Py.nl +:+ "Your Role: You answer billing") prompt
  then None else Some "  Two days.  ".

Definition question : string := "Where is my order?".

End Scenario.

(** * Properties *)

(** ** Slices and ordered dictionaries *)

Section PyFacts.
Context {A : Type}.
Implicit Types l m : list A.

(** For a positive count, [l[-n:]] drops all but the last [n] elements. *)
Lemma slice_from_last (n : Z) l :
  (1 <= n)%Z -> Py.slice_from (- n) l = drop (length l - Z.to_nat n) l.
Proof.
  intros Hn. unfold Py.slice_from.
  destruct (Z.ltb_spec (- n) 0) as [_ | ?]; [| lia].
  destruct (Z.ltb_spec (- n + Z.of_nat (length l)) 0) as [Hlt | Hge];
    f_equal; lia.
Qed.

(** [l[-0:]] is [l[0:]]: the whole list. *)
Lemma slice_from_zero l : Py.slice_from (- 0) l = l.
Proof.
  by destruct l.
Qed.

(** For a negative count [-k], [l[k:]] drops the first [k] elements. *)
Lemma slice_from_negative (n : Z) l :
  (n < 0)%Z -> Py.slice_from (- n) l = drop (Z.to_nat (- n)) l.
Proof.
  intros Hn. unfold Py.slice_from.
  destruct (Z.ltb_spec (- n) 0) as [? | _]; [lia |].
  destruct (Z.leb_spec (Z.of_nat (length l)) (- n)) as [Hle | _]; [| done].
  rewrite !drop_ge; [done | lia | lia].
Qed.

Lemma slice_from_tail_of (n : Z) l :
  (1 <= n)%Z -> Spec.tail_of (Z.to_nat n) l (Py.slice_from (- n) l).
Proof.
  intros Hn. rewrite slice_from_last by done. split.
  - exists (take (length l - Z.to_nat n) l). by rewrite take_drop.
  - rewrite length_drop. lia.
Qed.

Lemma slice_from_all (n : Z) l :
  (1 <= n)%Z -> length l <= Z.to_nat n -> Py.slice_from (- n) l = l.
Proof.
  intros Hn Hlen. rewrite slice_from_last by done.
  by replace (length l - Z.to_nat n) with 0 by lia.
Qed.
End PyFacts.

Section OdictFacts.
Context {V : Type}.
Implicit Types d : Py.odict V.

Lemma get_set_eq d k v : Py.get (Py.set d k v) k = Some v.
Proof.
  induction d as [| [k' v'] d IH]; simpl.
  - by rewrite decide_True.
  - destruct (decide (k' = k)) as [-> | Hne]; simpl.
    + by rewrite decide_True.
    + by rewrite decide_False.
Qed.

Lemma get_set_ne d k k' v : k <> k' -> Py.get (Py.set d k v) k' = Py.get d k'.
Proof.
  intros Hne. induction d as [| [k0 v0] d IH]; simpl.
  - by rewrite decide_False.
  - destruct (decide (k0 = k)) as [-> | Hk]; simpl.
    + by rewrite !decide_False.
    + destruct (decide (k0 = k')); done.
Qed.

(** Writing under a key that is present keeps the keys and their order. *)
Lemma keys_set_present d k v :
  k ∈ Py.keys d -> Py.keys (Py.set d k v) = Py.keys d.
Proof.
  unfold Py.keys. induction d as [| [k' v'] d IH]; simpl.
  - by intros ?%elem_of_nil.
  - intros Hin. destruct (decide (k' = k)) as [-> | Hne]; simpl; [done |].
    f_equal. apply IH. apply elem_of_cons in Hin as [-> | Hin]; done.
Qed.

(** Writing under a new key adds it last. *)
Lemma keys_set_absent d k v :
  k ∉ Py.keys d -> Py.keys (Py.set d k v) = Py.keys d ++ [k].
Proof.
  unfold Py.keys. induction d as [| [k' v'] d IH]; simpl; [done |].
  intros Hnin. apply not_elem_of_cons in Hnin as [Hne Hnin].
  rewrite decide_False by done. simpl. f_equal. by apply IH.
Qed.

Lemma elem_of_keys_set d k v k' :
  k' ∈ Py.keys (Py.set d k v) <-> k' = k \/ k' ∈ Py.keys d.
Proof.
  destruct (decide (k ∈ Py.keys d)) as [Hin | Hnin].
  - rewrite keys_set_present by done. split; [auto |].
    intros [-> | ?]; done.
  - rewrite keys_set_absent by done. rewrite elem_of_app, list_elem_of_singleton.
    tauto.
Qed.

Lemma is_dict_set d k v : Spec.is_dict d -> Spec.is_dict (Py.set d k v).
Proof.
  unfold Spec.is_dict. intros Hd.
  destruct (decide (k ∈ Py.keys d)) as [Hin | Hnin].
  - by rewrite keys_set_present.
  - rewrite keys_set_absent by done. apply NoDup_app. split; [done |].
    split; [| apply NoDup_singleton].
    intros x Hx ->%list_elem_of_singleton. done.
Qed.

Lemma get_Some_keys d k : is_Some (Py.get d k) <-> k ∈ Py.keys d.
Proof.
  unfold Py.keys. induction d as [| [k' v'] d IH]; simpl.
  - split; [by intros [? ?] | by intros ?%elem_of_nil].
  - destruct (decide (k' = k)) as [-> | Hne].
    + split; [intros _; left | eauto].
    + rewrite IH, elem_of_cons. split; [tauto |].
      intros [Heq | Hin]; [by subst | done].
Qed.

Lemma contains_true d k : Py.contains d k = true <-> is_Some (Py.get d k).
Proof.
  unfold Py.contains. destruct (Py.get d k) as [v |]; split.
  - eauto.
  - done.
  - done.
  - by intros [? ?].
Qed.
End OdictFacts.

(** ** MemoryVault *)

Section VaultFacts.
Implicit Types (self : MemoryVault.t) (q : Beacons) (c : Claim.t).

Lemma item_in_items_spec (k : string) (v : Py.PyVal) (tags : Beacons) :
  MemoryVault.item_in_items (k, v) tags = true <->
  exists w, tags !! k = Some w /\ Py.py_eq w v = true.
Proof.
  unfold MemoryVault.item_in_items. simpl.
  destruct (tags !! k) as [w |]; split.
  - eauto.
  - by intros (w' & [= <-] & Heq).
  - done.
  - by intros (w' & ? & _).
Qed.

(** The test of the comprehension decides the superset relation. *)
Lemma beacon_match_spec q c :
  MemoryVault.beacon_match q c = true <->
  Spec.tags_superset q (Claim.beacons c).
Proof.
  unfold MemoryVault.beacon_match, Spec.tags_superset.
  rewrite forallb_forall. split.
  - intros Hall k v Hkv. apply item_in_items_spec, Hall.
    by apply list_elem_of_In, elem_of_map_to_list.
  - intros Hsup [k v] Hin. apply item_in_items_spec, Hsup.
    by apply elem_of_map_to_list, list_elem_of_In.
Qed.

Lemma tags_superset_empty (tags : Beacons) : Spec.tags_superset ∅ tags.
Proof. intros k v Hkv. by rewrite lookup_empty in Hkv. Qed.

Lemma beacon_match_empty c : MemoryVault.beacon_match ∅ c = true.
Proof. apply beacon_match_spec, tags_superset_empty. Qed.

(** The comprehension computes the match sequence. *)
Lemma filter_match_sequence q (claims : list Claim.t) :
  Spec.match_sequence q claims
    (List.filter (MemoryVault.beacon_match q) claims).
Proof.
  induction claims as [| c claims IH]; simpl.
  - constructor.
  - destruct (MemoryVault.beacon_match q c) eqn:Hc.
    + apply Spec.subsequence_keep; [by apply beacon_match_spec | done].
    + apply Spec.subsequence_skip; [| done].
      intros Hsup%beacon_match_spec. congruence.
Qed.

(** A list has one match sequence. *)
Lemma match_sequence_unique q (claims m1 m2 : list Claim.t) :
  Spec.match_sequence q claims m1 -> Spec.match_sequence q claims m2 ->
  m1 = m2.
Proof.
  intros H1. revert m2.
  induction H1 as [| x l m Hx _ IH | x l m Hx _ IH]; intros m2 H2;
    inversion H2; subst; try done.
  - f_equal. by apply IH.
  - by apply IH.
Qed.

Lemma filter_all_true (claims : list Claim.t) :
  List.filter (MemoryVault.beacon_match ∅) claims = claims.
Proof.
  induction claims as [| c claims IH]; simpl; [done |].
  by rewrite beacon_match_empty, IH.
Qed.
End VaultFacts.

(** C1. For a limit of at least 1, [get_slice] returns the tail of the match
    sequence: the claims of the vault whose beacons hold every key of the
    query with an equal value, in insertion order, cut down to the [limit]
    most recent ones, and all of them when fewer than [limit] match. The
    empty query matches every claim. *)
Theorem get_slice_recent_matches (self : MemoryVault.t) (q : Beacons)
  (limit : Z) :
  (1 <= limit)%Z ->
  exists matches,
    Spec.match_sequence q (MemoryVault._claims self) matches /\
    Spec.tail_of (Z.to_nat limit) matches
                 (MemoryVault.get_slice self q limit).1 /\
    (length matches <= Z.to_nat limit ->
     (MemoryVault.get_slice self q limit).1 = matches) /\
    (q = ∅ -> matches = MemoryVault._claims self).
Proof.
  intros Hlimit.
  exists (List.filter (MemoryVault.beacon_match q) (MemoryVault._claims self)).
  split; [apply filter_match_sequence |].
  split; [apply (slice_from_tail_of limit _ Hlimit) |].
  split.
  - intros Hlen. simpl. by apply slice_from_all.
  - intros ->. apply filter_all_true.
Qed.

(** The scenario of the design document: both billing claims come back in
    their original order, and the urgent one alone for the narrower query. *)
Example get_slice_billing :
  (MemoryVault.get_slice Scenario.V (Scenario.topic "billing") 5).1
  = [Scenario.invoice; Scenario.declined] /\
  (MemoryVault.get_slice Scenario.V
     (<[ "urgent" := Py.VBool true ]> (Scenario.topic "billing")) 1).1
  = [Scenario.declined].
Proof. split; reflexivity. Qed.

Lemma get_slice_recent_matches_witness :
  (1 <= 2)%Z /\
  exists matches,
    Spec.match_sequence ∅ (MemoryVault._claims Scenario.V) matches /\
    Spec.tail_of (Z.to_nat 2) matches
                 (MemoryVault.get_slice Scenario.V ∅ 2).1 /\
    (length matches <= Z.to_nat 2 ->
     (MemoryVault.get_slice Scenario.V ∅ 2).1 = matches) /\
    (∅ = (∅ : Beacons) -> matches = MemoryVault._claims Scenario.V).
Proof.
  split; [lia |]. apply (get_slice_recent_matches Scenario.V ∅ 2). lia.
Defined.

(** C6. The design document wants [get_slice] to return nothing for a limit
    of 0 or less. The code returns every match for the limit 0, and every
    match but the [-limit] oldest for a negative limit. *)
Theorem get_slice_nonpositive_limit (self : MemoryVault.t) (q : Beacons)
  (limit : Z) :
  let matches :=
    List.filter (MemoryVault.beacon_match q) (MemoryVault._claims self) in
  ((MemoryVault.get_slice self q 0).1 = matches) /\
  ((limit < 0)%Z ->
   (MemoryVault.get_slice self q limit).1 = drop (Z.to_nat (- limit)) matches)
  /\
  (MemoryVault.get_slice Scenario.V ∅ 0).1
  = [Scenario.invoice; Scenario.declined; Scenario.parcel] /\
  (MemoryVault.get_slice Scenario.V ∅ (-1)).1
  = [Scenario.declined; Scenario.parcel].
Proof.
  simpl. split; [apply slice_from_zero |].
  split; [apply slice_from_negative |].
  split; reflexivity.
Qed.

(** C7. Append is monotonic: when a query returned fewer than [limit]
    claims, and the appended claim satisfies the query, the same call then
    returns the former result followed by the new claim. *)
Theorem get_slice_after_add_claim (self : MemoryVault.t) (c : Claim.t)
  (q : Beacons) (limit : Z) :
  (1 <= limit)%Z ->
  Spec.tags_superset q (Claim.beacons c) ->
  (Z.of_nat (length (MemoryVault.get_slice self q limit).1) < limit)%Z ->
  (MemoryVault.get_slice (MemoryVault.add_claim self c) q limit).1
  = (MemoryVault.get_slice self q limit).1 ++ [c].
Proof.
  intros Hlimit Hc%beacon_match_spec Hfew. simpl in *.
  set (matches :=
         List.filter (MemoryVault.beacon_match q) (MemoryVault._claims self))
    in *.
  rewrite slice_from_last in Hfew by done. rewrite length_drop in Hfew.
  rewrite List.filter_app. simpl. rewrite Hc. fold matches.
  rewrite !slice_from_all; [done | done | lia | done |].
  rewrite length_app. simpl. lia.
Qed.

Lemma get_slice_after_add_claim_witness :
  (MemoryVault.get_slice
     (MemoryVault.add_claim Scenario.V Scenario.declined)
     (Scenario.topic "billing") 3).1
  = (MemoryVault.get_slice Scenario.V (Scenario.topic "billing") 3).1
    ++ [Scenario.declined].
Proof.
  apply (get_slice_after_add_claim Scenario.V Scenario.declined
           (Scenario.topic "billing") 3).
  - lia.
  - apply beacon_match_spec. reflexivity.
  - vm_compute. reflexivity.
Defined.

(** C8. [get_slice] is idempotent and read-only: a second call with the
    same arguments returns the same sequence, and the vault is after each
    call what it was before. *)
Theorem get_slice_idempotent_readonly (self : MemoryVault.t) (q : Beacons)
  (limit : Z) :
  let first := MemoryVault.get_slice self q limit in
  let second := MemoryVault.get_slice first.2 q limit in
  second.1 = first.1 /\ first.2 = self /\ second.2 = self /\
  MemoryVault._claims second.2 = MemoryVault._claims self.
Proof. by simpl. Qed.

(** C9. [add_claim] puts the claim at the end of the sequence, which grows
    by exactly one, whatever the claim and whether or not it is stored
    already; the claims stored before keep their positions. *)
Theorem add_claim_appends (self : MemoryVault.t) (c : Claim.t) :
  let after := MemoryVault.add_claim self c in
  MemoryVault._claims after = MemoryVault._claims self ++ [c] /\
  length (MemoryVault._claims after) = S (length (MemoryVault._claims self)) /\
  last (MemoryVault._claims after) = Some c /\
  take (length (MemoryVault._claims self)) (MemoryVault._claims after)
  = MemoryVault._claims self /\
  (forall i, i < length (MemoryVault._claims self) ->
     MemoryVault._claims after !! i = MemoryVault._claims self !! i) /\
  MemoryVault.id after = MemoryVault.id self.
Proof.
  simpl. split; [done |].
  split; [rewrite length_app; simpl; lia |].
  split; [apply last_snoc |].
  split; [by rewrite take_app_length |].
  split; [| done].
  intros i Hi. by apply lookup_app_l.
Qed.

(** No deduplication: a claim appended twice is stored twice. *)
Example add_claim_twice :
  MemoryVault._claims
    (MemoryVault.add_claim
       (MemoryVault.add_claim (MemoryVault.init "V") Scenario.parcel)
       Scenario.parcel)
  = [Scenario.parcel; Scenario.parcel].
Proof. reflexivity. Qed.

(** ** Agent.run *)

Section StringFacts.
Implicit Types s t u : string.

Lemma string_app_cons (c : ascii) s t :
  String c s +:+ t = String c (s +:+ t).
Proof. reflexivity. Qed.

Lemma string_app_nil_l s : EmptyString +:+ s = s.
Proof. reflexivity. Qed.

Lemma string_app_nil_r s : s +:+ EmptyString = s.
Proof.
  induction s as [| c s IH]; [done |]. by rewrite string_app_cons, IH.
Qed.

Lemma string_app_assoc s t u : (s +:+ t) +:+ u = s +:+ (t +:+ u).
Proof.
  induction s as [| c s IH]; [done |]. by rewrite !string_app_cons, IH.
Qed.

Lemma string_app_nonempty_r s t : t <> EmptyString -> s +:+ t <> EmptyString.
Proof. destruct s; [done | by rewrite string_app_cons]. Qed.

Lemma nl_app_nonempty s : Py.nl +:+ s <> EmptyString.
Proof. done. Qed.
End StringFacts.

Section RunFacts.
Implicit Types (slices : Py.odict (list Claim.t)) (context : string).

(** The inner loop appends the lines of the claims, in their order. *)
Lemma add_claims_lines context (claims : list Claim.t) :
  Agent.add_claims context claims
  = context +:+ fold_right (fun claim lines =>
                              "- " +:+ Claim.content claim +:+ Py.nl
                                   +:+ lines)
                           EmptyString claims.
Proof.
  unfold Agent.add_claims. revert context.
  induction claims as [| c claims IH]; intros context; simpl.
  - by rewrite string_app_nil_r.
  - rewrite IH. by rewrite !string_app_assoc.
Qed.

Lemma add_slice_render context (item : string * list Claim.t) :
  Agent.add_slice context item
  = if Spec.is_nonempty item.2 then context +:+ Spec.render_slice item
    else context.
Proof.
  unfold Agent.add_slice, Spec.render_slice.
  destruct item as [vault_id [| c claims]]; [done |].
  cbn [snd fst Spec.is_nonempty]. rewrite add_claims_lines.
  by rewrite !string_app_assoc.
Qed.

(** The outer loop appends the rendering of the non-empty slices. *)
Lemma fold_add_slice context slices :
  fold_left Agent.add_slice slices context
  = context +:+ Spec.rendering slices.
Proof.
  unfold Spec.rendering. revert context.
  induction slices as [| item slices IH]; intros context; simpl.
  - by rewrite string_app_nil_r.
  - rewrite IH, add_slice_render.
    destruct (Spec.is_nonempty item.2); [| done].
    simpl. by rewrite string_app_assoc.
Qed.

Lemma rendering_all_empty slices :
  Forall (fun item => item.2 = []) slices ->
  Spec.rendering slices = EmptyString.
Proof.
  unfold Spec.rendering. induction 1 as [| item slices Hitem _ IH]; simpl.
  - done.
  - by rewrite Hitem.
Qed.

Lemma rendering_some_nonempty slices :
  Exists (fun item => item.2 <> []) slices ->
  Spec.rendering slices <> EmptyString.
Proof.
  unfold Spec.rendering.
  induction 1 as [item slices Hitem | item slices _ IH]; simpl.
  - destruct item.2 as [| c claims] eqn:Heq; [done |]. simpl.
    unfold Spec.render_slice. apply nl_app_nonempty.
  - destruct (Spec.is_nonempty item.2); [| done]. simpl.
    by apply string_app_nonempty_r.
Qed.

Lemma context_of_rendering slices :
  Exists (fun item => item.2 <> []) slices ->
  Agent.context_of slices = Spec.rendering slices.
Proof.
  intros Hsome%rendering_some_nonempty. unfold Agent.context_of.
  rewrite fold_add_slice, string_app_nil_l.
  by destruct (Spec.rendering slices).
Qed.

Lemma context_of_no_information slices :
  Forall (fun item => item.2 = []) slices ->
  Agent.context_of slices = Agent.no_information.
Proof.
  intros Hnone%rendering_all_empty. unfold Agent.context_of.
  by rewrite fold_add_slice, string_app_nil_l, Hnone.
Qed.

Lemma context_of_nonempty slices : Agent.context_of slices <> EmptyString.
Proof.
  unfold Agent.context_of.
  by destruct (fold_left Agent.add_slice slices EmptyString).
Qed.
End RunFacts.

(** C4. [Agent.run] sends one prompt to the generation collaborator. The
    prompt holds the role of the agent, the query as it is, and a context:
    the rendering of every non-empty slice (a header with the vault id, then
    one line per claim's content, in the order of the slice), the empty
    slices being left out, or the marker of missing information when every
    slice is empty or there is none. The context is never empty. *)
Theorem run_assembles_prompt (generate : string -> option string)
  (self : Agent.t) (q : string) (slices : Py.odict (list Claim.t)) :
  Agent.run generate self q slices
  = llm_call generate
      (Py.nl +:+ "Your Role: " +:+ Agent.role self +:+ Py.nl
       +:+ "User's Query: " +:+ Py.dquote +:+ q +:+ Py.dquote +:+ Py.nl
       +:+ "Relevant Information:" +:+ Py.nl
       +:+ Agent.context_of slices +:+ Py.nl
       +:+ "Based on your role and the provided information, generate a concise, partial response."
       +:+ Py.nl) /\
  (Exists (fun item => item.2 <> []) slices ->
   Agent.context_of slices
   = fold_right (fun item rest => Spec.render_slice item +:+ rest)
       EmptyString (List.filter (fun item => Spec.is_nonempty item.2) slices))
  /\
  (Forall (fun item => item.2 = []) slices ->
   Agent.context_of slices = Agent.no_information) /\
  Agent.context_of [] = Agent.no_information /\
  Agent.context_of slices <> EmptyString.
Proof.
  split; [done |].
  split; [apply context_of_rendering |].
  split; [apply context_of_no_information |].
  split; [done | apply context_of_nonempty].
Qed.

(** The prompt of agent A on the billing desk. *)
Example run_prompt_billing :
  Agent.context_of (Pipeline.slices_of (Scenario.desk Scenario.wake_all)
                                       Scenario.question Scenario.A)
  = Py.nl +:+ "--- Context from V1 ---" +:+ Py.nl
    +:+ "- Invoices are issued on the first of the month." +:+ Py.nl
    +:+ "- The card on file was declined." +:+ Py.nl.
Proof. reflexivity. Qed.

(** ** AgentFabric *)

Section RegistryFacts.
Implicit Types (self : AgentFabric.t).

(** Every fabric built from [init] by registrations holds dictionaries. *)
Lemma init_is_dict gatekeeper beacon augmentation :
  Spec.is_dict (AgentFabric._agents
                  (AgentFabric.init gatekeeper beacon augmentation)) /\
  Spec.is_dict (AgentFabric._vaults
                  (AgentFabric.init gatekeeper beacon augmentation)).
Proof. split; apply NoDup_nil_2. Qed.
End RegistryFacts.

(** C10. Registration is last-write-wins and local to one id: after
    [register_agent] the registry maps the id of the agent to that agent,
    an id registered before keeps its single entry and its place, every
    other id keeps its entry, and the vault registry, the strategies and the
    last trace are untouched; likewise for [register_vault]. *)
Theorem register_last_write_wins (self : AgentFabric.t) (agent : Agent.t)
  (vault : MemoryVault.t) :
  let fa := AgentFabric.register_agent self agent in
  let fv := AgentFabric.register_vault self vault in
  (Py.get (AgentFabric._agents fa) (Agent.id agent) = Some agent /\
   (forall k, k <> Agent.id agent ->
      Py.get (AgentFabric._agents fa) k = Py.get (AgentFabric._agents self) k)
   /\
   (Spec.is_dict (AgentFabric._agents self) ->
    Spec.is_dict (AgentFabric._agents fa)) /\
   (Agent.id agent ∈ Py.keys (AgentFabric._agents self) ->
    Py.keys (AgentFabric._agents fa) = Py.keys (AgentFabric._agents self)) /\
   AgentFabric._vaults fa = AgentFabric._vaults self /\
   AgentFabric.last_trace fa = AgentFabric.last_trace self) /\
  (Py.get (AgentFabric._vaults fv) (MemoryVault.id vault) = Some vault /\
   (forall k, k <> MemoryVault.id vault ->
      Py.get (AgentFabric._vaults fv) k = Py.get (AgentFabric._vaults self) k)
   /\
   (Spec.is_dict (AgentFabric._vaults self) ->
    Spec.is_dict (AgentFabric._vaults fv)) /\
   (MemoryVault.id vault ∈ Py.keys (AgentFabric._vaults self) ->
    Py.keys (AgentFabric._vaults fv) = Py.keys (AgentFabric._vaults self)) /\
   AgentFabric._agents fv = AgentFabric._agents self /\
   AgentFabric.last_trace fv = AgentFabric.last_trace self).
Proof.
  simpl. split.
  - split; [apply get_set_eq |].
    split; [intros k Hk; by apply get_set_ne |].
    split; [apply is_dict_set |].
    split; [apply keys_set_present | done].
  - split; [apply get_set_eq |].
    split; [intros k Hk; by apply get_set_ne |].
    split; [apply is_dict_set |].
    split; [apply keys_set_present | done].
Qed.

(** Registering the second agent with the id A replaces the first one. *)
Example register_agent_again :
  let desk := Scenario.desk Scenario.wake_all in
  Py.get (AgentFabric._agents desk) "A" = Some Scenario.A /\
  AgentFabric._agents (AgentFabric.register_agent desk Scenario.A')
  = [("A", Scenario.A'); ("B", Scenario.B)].
Proof. split; reflexivity. Qed.

Section RequestFacts.
Variable generate : string -> option string.
Variable self : AgentFabric.t.
Variable q : string.

Let step : AgentFabric.Loop -> Agent.t -> AgentFabric.Loop :=
  AgentFabric.agent_step generate self q (AgentFabric.beacon_strategy self q).

(** The loop appends one labeled contribution per agent, in order. *)
Lemma loop_partial_results_list (woken : list Agent.t)
  (st : AgentFabric.Loop) :
  AgentFabric.partial_results_list (fold_left step woken st)
  = AgentFabric.partial_results_list st
    ++ map (Pipeline.contribution_of generate self q) woken.
Proof.
  revert st. induction woken as [| agent woken IH]; intros st; simpl.
  - by rewrite app_nil_r.
  - rewrite IH. simpl. by rewrite <- app_assoc.
Qed.

(** The keys of a collected slice mapping: the vault ids of the agent that
    are registered. *)
Lemma fold_slice_step_keys (vaults : Py.odict MemoryVault.t)
  (agent_beacons : Beacons) (vault_ids : list string)
  (acc : Py.odict (list Claim.t) * list AgentFabric.Call)
  (vault_id : string) :
  vault_id ∈ Py.keys
    (fold_left (AgentFabric.slice_step vaults agent_beacons) vault_ids acc).1
  <-> vault_id ∈ Py.keys acc.1 \/
      (vault_id ∈ vault_ids /\ is_Some (Py.get vaults vault_id)).
Proof.
  revert acc. induction vault_ids as [| v vault_ids IH]; intros acc; simpl.
  - rewrite elem_of_nil. tauto.
  - rewrite IH, elem_of_cons. unfold AgentFabric.slice_step.
    destruct (Py.get vaults v) as [vault |] eqn:Hv; simpl.
    + rewrite elem_of_keys_set. split.
      * intros [[-> | Hacc] | [Hin Hreg]].
        -- right. split; [by left | by rewrite Hv].
        -- by left.
        -- right. split; [by right | done].
      * intros [Hacc | [[-> | Hin] Hreg]].
        -- left. by right.
        -- left. by left.
        -- right. by split.
    + split.
      * intros [Hacc | [Hin Hreg]].
        -- by left.
        -- right. split; [by right | done].
      * intros [Hacc | [[-> | Hin] Hreg]].
        -- by left.
        -- rewrite Hv in Hreg. by destruct Hreg.
        -- right. by split.
Qed.

Lemma slices_of_keys (agent : Agent.t) (vault_id : string) :
  vault_id ∈ Py.keys (Pipeline.slices_of self q agent)
  <-> vault_id ∈ Agent.vault_ids agent /\
      Py.contains (AgentFabric._vaults self) vault_id = true.
Proof.
  unfold Pipeline.slices_of, AgentFabric.collect_slices.
  rewrite fold_slice_step_keys, contains_true. simpl.
  rewrite elem_of_nil. tauto.
Qed.

(** After the loop, the trace holds under a selected id the slices of an
    agent selected with that id. *)
Lemma loop_slices_per_agent (woken : list Agent.t) (st : AgentFabric.Loop)
  (agent : Agent.t) :
  agent ∈ woken ->
  exists last_agent,
    last_agent ∈ woken /\ Agent.id last_agent = Agent.id agent /\
    Py.get (AgentFabric.slices_per_agent
              (AgentFabric.loop_trace (fold_left step woken st)))
           (Agent.id agent)
    = Some (Pipeline.slices_of self q last_agent).
Proof.
  induction woken as [| b woken IH] using rev_ind.
  - by intros ?%elem_of_nil.
  - intros Hin. rewrite fold_left_app. simpl.
    destruct (decide (Agent.id b = Agent.id agent)) as [Heq | Hne].
    + exists b. split; [apply elem_of_app; right; by left |].
      split; [done |]. rewrite Heq. apply get_set_eq.
    + apply elem_of_app in Hin as [Hin | Hin].
      * destruct (IH Hin) as (a' & Ha' & Hid & Hget).
        exists a'. split; [apply elem_of_app; by left |].
        split; [done |]. by rewrite get_set_ne.
      * apply list_elem_of_singleton in Hin. by subst.
Qed.

Lemma handle_request_nonempty (woken : list Agent.t) :
  AgentFabric.gatekeeper_strategy self q (AgentFabric._agents self) = woken ->
  woken <> [] ->
  AgentFabric.handle_request generate self q
  = let st := fold_left step woken
                {| AgentFabric.loop_trace :=
                     {| AgentFabric.query := q;
                        AgentFabric.woken_agents := woken;
                        AgentFabric.base_beacons :=
                          AgentFabric.beacon_strategy self q;
                        AgentFabric.slices_per_agent := [];
                        AgentFabric.partial_results := [] |};
                   AgentFabric.partial_results_list := [];
                   AgentFabric.loop_calls :=
                     [AgentFabric.CallGatekeeper q;
                      AgentFabric.CallBeacon q] |} in
    {| AgentFabric.response :=
         Py.join (Py.nl +:+ Py.nl) (AgentFabric.partial_results_list st);
       AgentFabric.trace := AgentFabric.loop_trace st;
       AgentFabric.fabric :=
         AgentFabric.with_last_trace self (AgentFabric.loop_trace st);
       AgentFabric.calls := AgentFabric.loop_calls st |}.
Proof.
  intros Hwoken Hne. unfold AgentFabric.handle_request. rewrite Hwoken.
  by destruct woken.
Qed.
End RequestFacts.

(** C2. When the gatekeeper selects at least one agent, the response is the
    labeled contributions of the selected agents, one per agent and in the
    order of the selection, joined by a blank line. The text of the
    generation collaborator stands as it is in the contribution: when the
    call fails for an agent, its contribution carries the error marker; and
    the contribution of an agent depends on the collaborator only through
    the answer to the prompt of that agent. *)
Theorem handle_request_joins_contributions
  (generate : string -> option string) (self : AgentFabric.t) (q : string) :
  AgentFabric.gatekeeper_strategy self q (AgentFabric._agents self) <> [] ->
  AgentFabric.response (AgentFabric.handle_request generate self q)
  = Py.join (Py.nl +:+ Py.nl)
      (map (fun agent =>
              "--- Contribution from " +:+ Agent.id agent +:+ " ---"
              +:+ Py.nl
              +:+ llm_call generate (Pipeline.prompt_for self q agent))
           (AgentFabric.gatekeeper_strategy self q (AgentFabric._agents self)))
  /\
  (forall agent,
     generate (Pipeline.prompt_for self q agent) = None ->
     Pipeline.contribution_of generate self q agent
     = "--- Contribution from " +:+ Agent.id agent +:+ " ---" +:+ Py.nl
       +:+ "[Error: LLM call failed.]") /\
  (forall generate' agent,
     generate' (Pipeline.prompt_for self q agent)
     = generate (Pipeline.prompt_for self q agent) ->
     Pipeline.contribution_of generate' self q agent
     = Pipeline.contribution_of generate self q agent).
Proof.
  intros Hwoken. split; [| split].
  - rewrite (handle_request_nonempty generate self q _ eq_refl Hwoken).
    cbn [AgentFabric.response]. by rewrite loop_partial_results_list.
  - intros agent Hfail.
    unfold Pipeline.contribution_of, AgentFabric.contribution, llm_call.
    by rewrite Hfail.
  - intros generate' agent Hsame.
    unfold Pipeline.contribution_of, llm_call. by rewrite Hsame.
Qed.

Lemma handle_request_joins_contributions_witness :
  AgentFabric.response
    (AgentFabric.handle_request Scenario.billing_is_down
       (Scenario.desk Scenario.wake_all) Scenario.question)
  = "--- Contribution from A ---" +:+ Py.nl +:+ "[Error: LLM call failed.]"
    +:+ Py.nl +:+ Py.nl
    +:+ "--- Contribution from B ---" +:+ Py.nl +:+ "Two days.".
Proof.
  refine (eq_trans
            (proj1 (handle_request_joins_contributions
                      Scenario.billing_is_down
                      (Scenario.desk Scenario.wake_all)
                      Scenario.question _)) _).
  - vm_compute. discriminate.
  - vm_compute. reflexivity.
Defined.

(** C3. When the gatekeeper selects nobody, [handle_request] returns the
    fixed message with a trace that holds the query and nothing else: no
    base beacons, no slices, no partial results. The gatekeeper is the only
    collaborator called, and the trace is kept as the last trace. *)
Theorem handle_request_short_circuit (generate : string -> option string)
  (self : AgentFabric.t) (q : string) :
  AgentFabric.gatekeeper_strategy self q (AgentFabric._agents self) = [] ->
  let out := AgentFabric.handle_request generate self q in
  AgentFabric.response out
  = "No relevant agent could be found to handle this request." /\
  AgentFabric.trace out
  = {| AgentFabric.query := q; AgentFabric.woken_agents := [];
       AgentFabric.base_beacons := ∅; AgentFabric.slices_per_agent := [];
       AgentFabric.partial_results := [] |} /\
  AgentFabric.partial_results (AgentFabric.trace out) = [] /\
  AgentFabric.calls out = [AgentFabric.CallGatekeeper q] /\
  AgentFabric.last_trace (AgentFabric.fabric out)
  = Some (AgentFabric.trace out) /\
  AgentFabric._agents (AgentFabric.fabric out) = AgentFabric._agents self /\
  AgentFabric._vaults (AgentFabric.fabric out) = AgentFabric._vaults self.
Proof.
  intros Hnone. unfold AgentFabric.handle_request. rewrite Hnone. simpl.
  repeat split.
Qed.

Lemma handle_request_short_circuit_witness :
  AgentFabric.response
    (AgentFabric.handle_request Scenario.billing_is_down
       (Scenario.desk Scenario.wake_nobody) Scenario.question)
  = "No relevant agent could be found to handle this request.".
Proof.
  apply (handle_request_short_circuit Scenario.billing_is_down
           (Scenario.desk Scenario.wake_nobody) Scenario.question).
  reflexivity.
Defined.

(** The trace is keyed by agent id: for a selected agent such that every
    selected agent with the same id lists the same vault ids, the trace has
    an entry under the id of the agent, and its keys are the vault ids the
    agent lists that are registered. *)
Lemma traced_slices_same_vault_ids (generate : string -> option string)
  (self : AgentFabric.t) (q : string) (agent : Agent.t) :
  agent ∈ AgentFabric.gatekeeper_strategy self q (AgentFabric._agents self) ->
  (forall other,
     other ∈ AgentFabric.gatekeeper_strategy self q (AgentFabric._agents self)
     -> Agent.id other = Agent.id agent ->
     Agent.vault_ids other = Agent.vault_ids agent) ->
  is_Some (Py.get (AgentFabric.slices_per_agent
                     (AgentFabric.trace
                        (AgentFabric.handle_request generate self q)))
                  (Agent.id agent)) /\
  (forall vault_id,
     vault_id ∈ Pipeline.traced_vault_ids generate self q (Agent.id agent) <->
     (vault_id ∈ Agent.vault_ids agent /\
      Py.contains (AgentFabric._vaults self) vault_id = true)).
Proof.
  intros Hin Hsame. unfold Pipeline.traced_vault_ids.
  assert (Hne : AgentFabric.gatekeeper_strategy self q
                  (AgentFabric._agents self) <> []).
  { intros Hnil. rewrite Hnil in Hin. by apply elem_of_nil in Hin. }
  rewrite (handle_request_nonempty generate self q _ eq_refl Hne).
  cbn [AgentFabric.trace].
  destruct (loop_slices_per_agent generate self q _
              {| AgentFabric.loop_trace :=
                   {| AgentFabric.query := q;
                      AgentFabric.woken_agents :=
                        AgentFabric.gatekeeper_strategy self q
                          (AgentFabric._agents self);
                      AgentFabric.base_beacons :=
                        AgentFabric.beacon_strategy self q;
                      AgentFabric.slices_per_agent := [];
                      AgentFabric.partial_results := [] |};
                 AgentFabric.partial_results_list := [];
                 AgentFabric.loop_calls :=
                   [AgentFabric.CallGatekeeper q; AgentFabric.CallBeacon q] |}
              agent Hin)
    as (last_agent & Hlast & Hid & Hget).
  rewrite Hget. split; [eauto |].
  intros vault_id. rewrite slices_of_keys.
  by rewrite (Hsame last_agent Hlast Hid).
Qed.

(** C5. The gatekeeper selects among the registered agents: every selected
    agent is the agent registered under its id. Then, for every selected
    agent, the trace has an entry under the id of the agent, and this entry
    has a key for a vault id if and only if the agent lists the id and the
    id is registered: an unregistered vault id is skipped and leaves no
    key. *)
Theorem traced_slices_follow_registered_agents
  (generate : string -> option string) (self : AgentFabric.t) (q : string) :
  (forall agent,
     agent ∈ AgentFabric.gatekeeper_strategy self q (AgentFabric._agents self)
     -> Py.get (AgentFabric._agents self) (Agent.id agent) = Some agent) ->
  forall agent,
    agent ∈ AgentFabric.gatekeeper_strategy self q (AgentFabric._agents self)
    ->
    is_Some (Py.get (AgentFabric.slices_per_agent
                       (AgentFabric.trace
                          (AgentFabric.handle_request generate self q)))
                    (Agent.id agent)) /\
    (forall vault_id,
       vault_id ∈ Pipeline.traced_vault_ids generate self q (Agent.id agent)
       <->
       (vault_id ∈ Agent.vault_ids agent /\
        Py.contains (AgentFabric._vaults self) vault_id = true)).
Proof.
  intros Hregistered agent Hin.
  apply traced_slices_same_vault_ids; [done |].
  intros other Hother Hid.
  pose proof (Hregistered other Hother) as Hentry.
  rewrite Hid, (Hregistered agent Hin) in Hentry.
  by injection Hentry as ->.
Qed.

Lemma traced_slices_follow_registered_agents_witness :
  is_Some (Py.get (AgentFabric.slices_per_agent
                     (AgentFabric.trace
                        (AgentFabric.handle_request Scenario.billing_is_down
                           (Scenario.desk Scenario.wake_all)
                           Scenario.question)))
                  (Agent.id Scenario.A)) /\
  (forall vault_id,
     vault_id ∈ Pipeline.traced_vault_ids Scenario.billing_is_down
                  (Scenario.desk Scenario.wake_all) Scenario.question
                  (Agent.id Scenario.A) <->
     (vault_id ∈ Agent.vault_ids Scenario.A /\
      Py.contains (AgentFabric._vaults (Scenario.desk Scenario.wake_all))
                  vault_id = true)).
Proof.
  apply (traced_slices_follow_registered_agents Scenario.billing_is_down
           (Scenario.desk Scenario.wake_all) Scenario.question).
  - intros agent Hin. vm_compute in Hin.
    apply elem_of_cons in Hin as [-> | Hin]; [reflexivity |].
    apply elem_of_cons in Hin as [-> | Hin]; [reflexivity |].
    by apply elem_of_nil in Hin.
  - vm_compute. left.
Defined.

(** The scenario of the design document: agent A lists V1 and V2, V2 is not
    registered, and the trace holds a key for V1 alone. *)
Example traced_vault_ids_of_A :
  Pipeline.traced_vault_ids Scenario.billing_is_down
    (Scenario.desk Scenario.wake_all) Scenario.question "A" = ["V1"].
Proof. reflexivity. Qed.

(** * Further properties of the code *)

(** ** MemoryVault: what a slice holds, whatever the limit *)

Section SliceFacts.
Context {A : Type}.
Implicit Types l m : list A.

Lemma slice_from_drop (start : Z) l :
  exists k, Py.slice_from start l = drop k l.
Proof. unfold Py.slice_from. eauto. Qed.

Lemma slice_from_length (n : Z) l :
  (1 <= n)%Z -> length (Py.slice_from (- n) l) <= Z.to_nat n.
Proof.
  intros Hn. rewrite slice_from_last by done. rewrite length_drop. lia.
Qed.

(** Appending to a list and slicing: the slice of the longer list is the
    slice of the former slice with the new element. *)
Lemma slice_from_snoc (n : Z) l (x : A) :
  (1 <= n)%Z ->
  Py.slice_from (- n) (l ++ [x])
  = Py.slice_from (- n) (Py.slice_from (- n) l ++ [x]).
Proof.
  intros Hn. rewrite !slice_from_last by done.
  rewrite !length_app, length_drop. simpl.
  destruct (decide (length l < Z.to_nat n)) as [Hfew | Hmany].
  - replace (length l - Z.to_nat n) with 0 by lia. simpl.
    by replace (length l - 0 + 1 - Z.to_nat n)
      with (length l + 1 - Z.to_nat n) by lia.
  - replace (length l - (length l - Z.to_nat n) + 1 - Z.to_nat n)
      with 1 by lia.
    rewrite !drop_app_le by (rewrite ?length_drop; lia).
    rewrite drop_drop. f_equal. f_equal. lia.
Qed.

Lemma slice_from_snoc_last (n : Z) l (x : A) :
  (1 <= n)%Z -> last (Py.slice_from (- n) (l ++ [x])) = Some x.
Proof.
  intros Hn. rewrite slice_from_last by done.
  rewrite drop_app_le by (rewrite length_app; simpl; lia).
  apply last_snoc.
Qed.
End SliceFacts.

Section MoreVaultFacts.
Implicit Types (self : MemoryVault.t) (q : Beacons) (c : Claim.t).

Lemma filter_sublist q (claims : list Claim.t) :
  List.filter (MemoryVault.beacon_match q) claims `sublist_of` claims.
Proof.
  induction claims as [| c claims IH]; simpl; [done |].
  destruct (MemoryVault.beacon_match q c).
  - by apply sublist_skip.
  - by apply sublist_cons.
Qed.

Lemma filter_add_claim q self c :
  List.filter (MemoryVault.beacon_match q)
    (MemoryVault._claims (MemoryVault.add_claim self c))
  = List.filter (MemoryVault.beacon_match q) (MemoryVault._claims self)
    ++ (if MemoryVault.beacon_match q c then [c] else []).
Proof.
  simpl. rewrite List.filter_app. simpl.
  by destruct (MemoryVault.beacon_match q c).
Qed.

(** Python's [==] is reflexive on beacon values. *)
Lemma py_eq_refl (v : Py.PyVal) : Py.py_eq v v = true.
Proof.
  destruct v as [| b | z | s]; simpl.
  - done.
  - by destruct b.
  - apply Z.eqb_refl.
  - apply String.eqb_refl.
Qed.

Lemma tags_superset_refl (tags : Beacons) : Spec.tags_superset tags tags.
Proof. intros k v Hkv. exists v. split; [done | apply py_eq_refl]. Qed.

(** A query with more items asks for more. *)
Lemma tags_superset_weaken q q' (tags : Beacons) :
  q ⊆ q' -> Spec.tags_superset q' tags -> Spec.tags_superset q tags.
Proof.
  intros Hsub Hsup k v Hkv. apply Hsup. by eapply lookup_weaken.
Qed.
End MoreVaultFacts.

(** X1. Whatever the limit, positive or not, the claims [get_slice] returns
    are the last ones of the match sequence: none is made up, none fails
    the query, and they come in the order of the vault. *)
Theorem get_slice_sound (self : MemoryVault.t) (q : Beacons) (limit : Z) :
  (exists older,
     Spec.match_sequence q (MemoryVault._claims self)
       (older ++ (MemoryVault.get_slice self q limit).1)) /\
  (MemoryVault.get_slice self q limit).1
    `sublist_of` MemoryVault._claims self /\
  (forall c, c ∈ (MemoryVault.get_slice self q limit).1 ->
     c ∈ MemoryVault._claims self /\
     Spec.tags_superset q (Claim.beacons c)).
Proof.
  simpl.
  set (matches :=
         List.filter (MemoryVault.beacon_match q) (MemoryVault._claims self)).
  destruct (slice_from_drop (- limit) matches) as [k ->].
  split; [| split].
  - exists (take k matches). rewrite take_drop. apply filter_match_sequence.
  - transitivity matches; [apply sublist_drop | apply filter_sublist].
  - intros c Hc.
    assert (Hin : In c matches).
    { apply list_elem_of_In. rewrite <- (take_drop k matches).
      apply elem_of_app. by right. }
    apply List.filter_In in Hin as [Hin Hmatch]. split.
    + by apply list_elem_of_In.
    + by apply beacon_match_spec.
Qed.

(** X2. For a limit of at least 1, a claim that satisfies the query is
    returned as the last element right after it is appended, however many
    claims matched before. *)
Theorem get_slice_newest_match_last (self : MemoryVault.t) (c : Claim.t)
  (q : Beacons) (limit : Z) :
  (1 <= limit)%Z ->
  Spec.tags_superset q (Claim.beacons c) ->
  last (MemoryVault.get_slice (MemoryVault.add_claim self c) q limit).1
  = Some c.
Proof.
  intros Hlimit Hc%beacon_match_spec.
  unfold MemoryVault.get_slice. cbn [fst].
  rewrite filter_add_claim, Hc. by apply slice_from_snoc_last.
Qed.

Lemma get_slice_newest_match_last_witness :
  last (MemoryVault.get_slice
          (MemoryVault.add_claim Scenario.V Scenario.invoice)
          (Scenario.topic "billing") 1).1
  = Some Scenario.invoice.
Proof.
  apply (get_slice_newest_match_last Scenario.V Scenario.invoice
           (Scenario.topic "billing") 1).
  - lia.
  - apply beacon_match_spec. reflexivity.
Defined.

(** X3. Append, then retrieve by the claim's own beacons: for a limit of at
    least 1 the claim comes back, as the last element. *)
Theorem get_slice_own_beacons (self : MemoryVault.t) (c : Claim.t)
  (limit : Z) :
  (1 <= limit)%Z ->
  last (MemoryVault.get_slice (MemoryVault.add_claim self c)
                              (Claim.beacons c) limit).1
  = Some c.
Proof.
  intros Hlimit. unfold MemoryVault.get_slice. cbn [fst].
  rewrite filter_add_claim.
  rewrite (proj2 (beacon_match_spec _ c) (tags_superset_refl _)).
  by apply slice_from_snoc_last.
Qed.

Lemma get_slice_own_beacons_witness :
  last (MemoryVault.get_slice
          (MemoryVault.add_claim Scenario.V Scenario.declined)
          (Claim.beacons Scenario.declined) 2).1
  = Some Scenario.declined.
Proof.
  apply (get_slice_own_beacons Scenario.V Scenario.declined 2). lia.
Defined.

(** X4. The window slides: for a limit of at least 1, the result after the
    append of a matching claim is the former result with the claim added,
    cut again to the limit. *)
Theorem get_slice_window_slides (self : MemoryVault.t) (c : Claim.t)
  (q : Beacons) (limit : Z) :
  (1 <= limit)%Z ->
  Spec.tags_superset q (Claim.beacons c) ->
  (MemoryVault.get_slice (MemoryVault.add_claim self c) q limit).1
  = Py.slice_from (- limit) ((MemoryVault.get_slice self q limit).1 ++ [c]).
Proof.
  intros Hlimit Hc%beacon_match_spec.
  unfold MemoryVault.get_slice. cbn [fst].
  rewrite filter_add_claim, Hc. by apply slice_from_snoc.
Qed.

Lemma get_slice_window_slides_witness :
  (MemoryVault.get_slice
     (MemoryVault.add_claim Scenario.V Scenario.invoice)
     (Scenario.topic "billing") 2).1
  = [Scenario.declined; Scenario.invoice].
Proof.
  refine (eq_trans
            (get_slice_window_slides Scenario.V Scenario.invoice
               (Scenario.topic "billing") 2 _ _) _).
  - lia.
  - apply beacon_match_spec. reflexivity.
  - reflexivity.
Defined.

(** X5. A claim that does not satisfy the query is not seen: appending it
    changes no result of that query, whatever the limit. *)
Theorem get_slice_ignores_other_claims (self : MemoryVault.t) (c : Claim.t)
  (q : Beacons) (limit : Z) :
  ~ Spec.tags_superset q (Claim.beacons c) ->
  (MemoryVault.get_slice (MemoryVault.add_claim self c) q limit).1
  = (MemoryVault.get_slice self q limit).1.
Proof.
  intros Hc. unfold MemoryVault.get_slice. cbn [fst].
  rewrite filter_add_claim.
  destruct (MemoryVault.beacon_match q c) eqn:Hmatch.
  - by apply beacon_match_spec in Hmatch.
  - by rewrite app_nil_r.
Qed.

Lemma get_slice_ignores_other_claims_witness :
  (MemoryVault.get_slice
     (MemoryVault.add_claim Scenario.V Scenario.parcel)
     (Scenario.topic "billing") 0).1
  = (MemoryVault.get_slice Scenario.V (Scenario.topic "billing") 0).1.
Proof.
  apply (get_slice_ignores_other_claims Scenario.V Scenario.parcel
           (Scenario.topic "billing") 0).
  intros Hsup%beacon_match_spec. vm_compute in Hsup. discriminate.
Defined.

Lemma match_sequence_sublist (q q' : Beacons) (claims m m' : list Claim.t) :
  q ⊆ q' ->
  Spec.match_sequence q claims m ->
  Spec.match_sequence q' claims m' ->
  m' `sublist_of` m.
Proof.
  intros Hsub Hm. revert m'.
  induction Hm as [| x l m Hx _ IH | x l m Hx _ IH]; intros m' Hm';
    inversion Hm'; subst.
  - done.
  - apply sublist_skip. by apply IH.
  - apply sublist_cons. by apply IH.
  - exfalso. apply Hx. by eapply tags_superset_weaken.
  - by apply IH.
Qed.

(** X6. Adding items to a query can only narrow it: a claim that passes the
    test of the larger query passes that of the smaller one, and the
    matches of the larger query in a vault are a subsequence of the matches
    of the smaller one. *)
Theorem larger_query_matches_less (self : MemoryVault.t) (q q' : Beacons) :
  q ⊆ q' ->
  (forall c, MemoryVault.beacon_match q' c = true ->
     MemoryVault.beacon_match q c = true) /\
  List.filter (MemoryVault.beacon_match q') (MemoryVault._claims self)
  `sublist_of`
  List.filter (MemoryVault.beacon_match q) (MemoryVault._claims self).
Proof.
  intros Hsub. split.
  - intros c Hc%beacon_match_spec. apply beacon_match_spec.
    by eapply tags_superset_weaken.
  - eapply match_sequence_sublist; [done | |]; apply filter_match_sequence.
Qed.

Lemma larger_query_matches_less_witness :
  (forall c,
     MemoryVault.beacon_match
       (<[ "urgent" := Py.VBool true ]> (Scenario.topic "billing")) c = true ->
     MemoryVault.beacon_match (Scenario.topic "billing") c = true) /\
  List.filter
    (MemoryVault.beacon_match
       (<[ "urgent" := Py.VBool true ]> (Scenario.topic "billing")))
    (MemoryVault._claims Scenario.V)
  `sublist_of`
  List.filter (MemoryVault.beacon_match (Scenario.topic "billing"))
    (MemoryVault._claims Scenario.V).
Proof.
  apply (larger_query_matches_less Scenario.V (Scenario.topic "billing")
           (<[ "urgent" := Py.VBool true ]> (Scenario.topic "billing"))).
  apply insert_subseteq. reflexivity.
Defined.

(** ** llm_call and Agent.run *)

Section StripFacts.
Implicit Types s : string.

Lemma lstrip_fixed s :
  match s with String c _ => Py.isspace c = false | EmptyString => True end ->
  Py.lstrip s = s.
Proof. destruct s as [| c s]; simpl; [done |]. by intros ->. Qed.

Lemma lstrip_head s :
  match Py.lstrip s with
  | String c _ => Py.isspace c = false
  | EmptyString => True
  end.
Proof.
  induction s as [| c s IH]; simpl; [done |].
  by destruct (Py.isspace c) eqn:Hc.
Qed.

Lemma rstrip_head s :
  match s with String c _ => Py.isspace c = false | EmptyString => True end ->
  match Py.rstrip s with
  | String c _ => Py.isspace c = false
  | EmptyString => True
  end.
Proof.
  destruct s as [| c s]; simpl; [done |]. intros Hc.
  destruct (Py.rstrip s); [by rewrite Hc | done].
Qed.

Lemma rstrip_rstrip s : Py.rstrip (Py.rstrip s) = Py.rstrip s.
Proof.
  induction s as [| c s IH]; simpl; [done |].
  destruct (Py.rstrip s) as [| d r] eqn:Hr.
  - destruct (Py.isspace c) eqn:Hc; simpl; [done | by rewrite Hc].
  - simpl in IH |- *. by rewrite IH.
Qed.

(** Stripping twice is stripping once. *)
Lemma strip_strip s : Py.strip (Py.strip s) = Py.strip s.
Proof.
  unfold Py.strip.
  rewrite (lstrip_fixed (Py.rstrip (Py.lstrip s))).
  - apply rstrip_rstrip.
  - apply rstrip_head, lstrip_head.
Qed.

(** A stripped text neither starts nor ends with white space. *)
Lemma rstrip_last s :
  match last (list_ascii_of_string (Py.rstrip s)) with
  | Some c => Py.isspace c = false
  | None => True
  end.
Proof.
  induction s as [| c s IH]; simpl; [done |].
  destruct (Py.rstrip s) as [| d r] eqn:Hr.
  - by destruct (Py.isspace c) eqn:Hc.
  - simpl in IH |- *. by destruct (list_ascii_of_string r).
Qed.
End StripFacts.

(** X7. The text [llm_call] returns is trimmed, the error marker too: it
    neither starts nor ends with a white space character, and stripping it
    again changes nothing. *)
Theorem llm_call_trimmed (generate : string -> option string)
  (prompt : string) :
  let text := llm_call generate prompt in
  Py.strip text = text /\
  match text with
  | String c _ => Py.isspace c = false
  | EmptyString => True
  end /\
  match last (list_ascii_of_string text) with
  | Some c => Py.isspace c = false
  | None => True
  end.
Proof.
  simpl. unfold llm_call. destruct (generate prompt) as [text |].
  - split; [apply strip_strip |].
    split; [apply rstrip_head, lstrip_head | apply rstrip_last].
  - by vm_compute.
Qed.

Section MoreRunFacts.
Implicit Types (slices : Py.odict (list Claim.t)).

Lemma filter_nonempty_twice slices :
  List.filter (fun item => Spec.is_nonempty item.2)
    (List.filter (fun item => Spec.is_nonempty item.2) slices)
  = List.filter (fun item => Spec.is_nonempty item.2) slices.
Proof.
  induction slices as [| item slices IH]; simpl; [done |].
  destruct (Spec.is_nonempty item.2) eqn:Hitem; simpl; [| done].
  by rewrite Hitem, IH.
Qed.

Lemma context_of_unfold slices :
  Agent.context_of slices
  = match Spec.rendering slices with
    | EmptyString => Agent.no_information
    | context => context
    end.
Proof.
  unfold Agent.context_of. by rewrite fold_add_slice, string_app_nil_l.
Qed.
End MoreRunFacts.

(** X8. The empty slices of the mapping leave no trace in the prompt: an
    agent is asked the same with or without them. *)
Theorem run_ignores_empty_slices (generate : string -> option string)
  (self : Agent.t) (q : string) (slices : Py.odict (list Claim.t)) :
  Agent.run generate self q slices
  = Agent.run generate self q
      (List.filter (fun item => Spec.is_nonempty item.2) slices).
Proof.
  unfold Agent.run, Agent.prompt_of. rewrite !context_of_unfold.
  unfold Spec.rendering. by rewrite filter_nonempty_twice.
Qed.

(** ** AgentFabric: the trace and the calls of a request *)

Section MoreOdictFacts.
Context {V : Type}.
Implicit Types d : Py.odict V.

Lemma set_absent d k v : k ∉ Py.keys d -> Py.set d k v = d ++ [(k, v)].
Proof.
  unfold Py.keys. induction d as [| [k' v'] d IH]; simpl; [done |].
  intros Hnin. apply not_elem_of_cons in Hnin as [Hne Hnin].
  rewrite decide_False by done. f_equal. by apply IH.
Qed.

Lemma set_set d k v v' : Py.set (Py.set d k v) k v' = Py.set d k v'.
Proof.
  induction d as [| [k0 v0] d IH]; simpl.
  - by rewrite decide_True.
  - destruct (decide (k0 = k)) as [-> | Hne]; simpl.
    + by rewrite decide_True.
    + rewrite decide_False by done. by rewrite IH.
Qed.

(** The keys after a write depend on the keys before and on the key. *)
Lemma keys_set_same {W : Type} d (d' : Py.odict W) k v (w : W) :
  Py.keys d = Py.keys d' ->
  Py.keys (Py.set d k v) = Py.keys (Py.set d' k w).
Proof.
  intros Hkeys. destruct (decide (k ∈ Py.keys d)) as [Hin | Hnin].
  - rewrite !keys_set_present; [done | by rewrite <- Hkeys | done].
  - rewrite !keys_set_absent; [by rewrite Hkeys | by rewrite <- Hkeys | done].
Qed.
End MoreOdictFacts.

Section MoreRequestFacts.
Variable generate : string -> option string.
Variable self : AgentFabric.t.
Variable q : string.

Let step : AgentFabric.Loop -> Agent.t -> AgentFabric.Loop :=
  AgentFabric.agent_step generate self q (AgentFabric.beacon_strategy self q).

Let start (woken : list Agent.t) : AgentFabric.Loop :=
  {| AgentFabric.loop_trace :=
       {| AgentFabric.query := q;
          AgentFabric.woken_agents := woken;
          AgentFabric.base_beacons := AgentFabric.beacon_strategy self q;
          AgentFabric.slices_per_agent := [];
          AgentFabric.partial_results := [] |};
     AgentFabric.partial_results_list := [];
     AgentFabric.loop_calls :=
       [AgentFabric.CallGatekeeper q; AgentFabric.CallBeacon q] |}.

(** The loop writes the two mappings of the trace and nothing else. *)
Lemma loop_trace_header (woken : list Agent.t) (st : AgentFabric.Loop) :
  let tr := AgentFabric.loop_trace (fold_left step woken st) in
  AgentFabric.query tr = AgentFabric.query (AgentFabric.loop_trace st) /\
  AgentFabric.woken_agents tr
  = AgentFabric.woken_agents (AgentFabric.loop_trace st) /\
  AgentFabric.base_beacons tr
  = AgentFabric.base_beacons (AgentFabric.loop_trace st).
Proof.
  revert st. induction woken as [| agent woken IH]; intros st; simpl.
  - done.
  - destruct (IH (step st agent)) as (Hq & Hw & Hb). simpl in *.
    by rewrite Hq, Hw, Hb.
Qed.

(** With pairwise distinct ids, each agent adds one entry to each mapping. *)
Lemma loop_distinct_ids (woken : list Agent.t) (st : AgentFabric.Loop) :
  NoDup (map Agent.id woken) ->
  (forall agent, agent ∈ woken ->
     (Agent.id agent
        ∉ Py.keys (AgentFabric.slices_per_agent (AgentFabric.loop_trace st)))
     /\
     (Agent.id agent
        ∉ Py.keys (AgentFabric.partial_results (AgentFabric.loop_trace st))))
  ->
  let tr := AgentFabric.loop_trace (fold_left step woken st) in
  AgentFabric.slices_per_agent tr
  = AgentFabric.slices_per_agent (AgentFabric.loop_trace st)
    ++ map (fun agent => (Agent.id agent, Pipeline.slices_of self q agent))
         woken /\
  AgentFabric.partial_results tr
  = AgentFabric.partial_results (AgentFabric.loop_trace st)
    ++ map (fun agent =>
              (Agent.id agent,
               llm_call generate (Pipeline.prompt_for self q agent)))
         woken.
Proof.
  revert st. induction woken as [| agent woken IH]; intros st Hnodup Hfresh.
  - simpl. by rewrite !app_nil_r.
  - simpl in Hnodup. apply NoDup_cons in Hnodup as [Hhead Hnodup].
    destruct (Hfresh agent) as [Hs Hp]; [by left |].
    cbn [fold_left map]. cbv zeta.
    destruct (IH (step st agent) Hnodup) as [Hslices Hpartials].
    + intros other Hother. destruct (Hfresh other) as [Hos Hop]; [by right |].
      assert (Hne : Agent.id other <> Agent.id agent).
      { intros Heq. apply Hhead. rewrite <- Heq.
        apply list_elem_of_fmap. by exists other. }
      simpl. rewrite !elem_of_keys_set. tauto.
    + rewrite Hslices, Hpartials. simpl.
      rewrite (set_absent _ _ _ Hs), (set_absent _ _ _ Hp).
      by rewrite <- !app_assoc.
Qed.

(** The two mappings of the trace keep the same keys, each once. *)
Lemma loop_keys (woken : list Agent.t) (st : AgentFabric.Loop) :
  Py.keys (AgentFabric.slices_per_agent (AgentFabric.loop_trace st))
  = Py.keys (AgentFabric.partial_results (AgentFabric.loop_trace st)) ->
  Spec.is_dict (AgentFabric.slices_per_agent (AgentFabric.loop_trace st)) ->
  let tr := AgentFabric.loop_trace (fold_left step woken st) in
  Py.keys (AgentFabric.slices_per_agent tr)
  = Py.keys (AgentFabric.partial_results tr) /\
  Spec.is_dict (AgentFabric.slices_per_agent tr) /\
  (forall k,
     k ∈ Py.keys (AgentFabric.slices_per_agent tr) <->
     (k ∈ Py.keys (AgentFabric.slices_per_agent (AgentFabric.loop_trace st))
      \/ k ∈ map Agent.id woken)).
Proof.
  revert st. induction woken as [| agent woken IH]; intros st Hkeys Hdict.
  - simpl. split; [done |]. split; [done |].
    intros k. rewrite elem_of_nil. tauto.
  - cbn [fold_left map]. cbv zeta.
    destruct (IH (step st agent)) as (Hk & Hd & Hmem).
    + simpl. by apply keys_set_same.
    + simpl. by apply is_dict_set.
    + split; [done |]. split; [done |].
      intros k. rewrite Hmem. simpl. rewrite elem_of_keys_set, elem_of_cons.
      tauto.
Qed.

(** Where the entries of a collected slice mapping come from. *)
Lemma fold_slice_step_get (vaults : Py.odict MemoryVault.t)
  (agent_beacons : Beacons) (vault_ids : list string)
  (acc : Py.odict (list Claim.t) * list AgentFabric.Call)
  (vault_id : string) (claims : list Claim.t) :
  Py.get (fold_left (AgentFabric.slice_step vaults agent_beacons)
                    vault_ids acc).1 vault_id = Some claims ->
  Py.get acc.1 vault_id = Some claims \/
  (vault_id ∈ vault_ids /\
   exists vault,
     Py.get vaults vault_id = Some vault /\
     claims = (MemoryVault.get_slice vault agent_beacons
                 MemoryVault.default_max_claims).1).
Proof.
  revert acc. induction vault_ids as [| v vault_ids IH]; intros acc; simpl.
  - by left.
  - intros Hget. apply IH in Hget as [Hget | (Hin & vault & Hv & ->)].
    + unfold AgentFabric.slice_step in Hget.
      destruct (Py.get vaults v) as [vault |] eqn:Hv; [| by left].
      simpl in Hget. destruct (decide (v = vault_id)) as [-> | Hne].
      * rewrite get_set_eq in Hget. injection Hget as <-.
        right. split; [by left | by exists vault].
      * rewrite get_set_ne in Hget by done. by left.
    + right. split; [by right | by exists vault].
Qed.

(** Every entry of the traced slices is the slice mapping of a selected
    agent with that id. *)
Lemma loop_slices_origin (woken : list Agent.t) (st : AgentFabric.Loop)
  (k : string) (slices : Py.odict (list Claim.t)) :
  Py.get (AgentFabric.slices_per_agent
            (AgentFabric.loop_trace (fold_left step woken st))) k
  = Some slices ->
  Py.get (AgentFabric.slices_per_agent (AgentFabric.loop_trace st)) k
  = Some slices \/
  exists agent,
    agent ∈ woken /\ Agent.id agent = k /\
    slices = Pipeline.slices_of self q agent.
Proof.
  revert st. induction woken as [| agent woken IH]; intros st; simpl.
  - by left.
  - intros Hget. apply IH in Hget as [Hget | (a & Ha & Hid & ->)].
    + simpl in Hget. destruct (decide (Agent.id agent = k)) as [Heq | Hne].
      * rewrite Heq, get_set_eq in Hget. injection Hget as <-.
        right. exists agent. split; [by left | done].
      * rewrite get_set_ne in Hget by done. by left.
    + right. exists a. split; [by right | done].
Qed.

Lemma handle_request_start (woken : list Agent.t) :
  AgentFabric.gatekeeper_strategy self q (AgentFabric._agents self) = woken ->
  woken <> [] ->
  AgentFabric.handle_request generate self q
  = let st := fold_left step woken (start woken) in
    {| AgentFabric.response :=
         Py.join (Py.nl +:+ Py.nl) (AgentFabric.partial_results_list st);
       AgentFabric.trace := AgentFabric.loop_trace st;
       AgentFabric.fabric :=
         AgentFabric.with_last_trace self (AgentFabric.loop_trace st);
       AgentFabric.calls := AgentFabric.loop_calls st |}.
Proof. apply handle_request_nonempty. Qed.
End MoreRequestFacts.

(** X9. A request changes the last trace and nothing else of the fabric:
    the registries and the strategies are what they were, the last trace is
    the trace returned, and this trace carries the query, the selection and,
    unless nobody was selected, the base beacons of the query. *)
Theorem handle_request_frame (generate : string -> option string)
  (self : AgentFabric.t) (q : string) :
  let out := AgentFabric.handle_request generate self q in
  let woken :=
    AgentFabric.gatekeeper_strategy self q (AgentFabric._agents self) in
  AgentFabric.fabric out
  = AgentFabric.with_last_trace self (AgentFabric.trace out) /\
  AgentFabric._agents (AgentFabric.fabric out) = AgentFabric._agents self /\
  AgentFabric._vaults (AgentFabric.fabric out) = AgentFabric._vaults self /\
  AgentFabric.last_trace (AgentFabric.fabric out)
  = Some (AgentFabric.trace out) /\
  AgentFabric.query (AgentFabric.trace out) = q /\
  AgentFabric.woken_agents (AgentFabric.trace out) = woken /\
  AgentFabric.base_beacons (AgentFabric.trace out)
  = match woken with
    | [] => ∅
    | _ :: _ => AgentFabric.beacon_strategy self q
    end.
Proof.
  cbv zeta.
  destruct (AgentFabric.gatekeeper_strategy self q (AgentFabric._agents self))
    as [| agent woken] eqn:Hwoken.
  - unfold AgentFabric.handle_request. rewrite Hwoken. by simpl.
  - rewrite (handle_request_nonempty generate self q _ Hwoken) by done.
    cbv zeta. cbn [AgentFabric.fabric AgentFabric.trace].
    split; [done |]. split; [done |]. split; [done |]. split; [done |].
    apply (loop_trace_header generate self q).
Qed.

(** X10. When the selected agents bear pairwise distinct ids, the trace is
    known in full: one entry per agent in both mappings, in the order of
    the selection, with the slices collected for the agent and the text its
    prompt produced. *)
Theorem handle_request_trace (generate : string -> option string)
  (self : AgentFabric.t) (q : string) :
  AgentFabric.gatekeeper_strategy self q (AgentFabric._agents self) <> [] ->
  NoDup (map Agent.id
           (AgentFabric.gatekeeper_strategy self q
              (AgentFabric._agents self))) ->
  AgentFabric.trace (AgentFabric.handle_request generate self q)
  = Pipeline.trace_of generate self q
      (AgentFabric.gatekeeper_strategy self q (AgentFabric._agents self)).
Proof.
  intros Hne Hnodup.
  rewrite (handle_request_nonempty generate self q _ eq_refl Hne).
  cbv zeta. cbn [AgentFabric.trace].
  match goal with
  | |- AgentFabric.loop_trace (fold_left ?f ?l ?st) = _ =>
      pose proof (loop_trace_header generate self q l st) as Hhead;
      pose proof (loop_distinct_ids generate self q l st Hnodup) as Hbody
  end.
  cbv zeta in Hhead, Hbody.
  destruct Hhead as (Hq & Hw & Hb).
  destruct Hbody as [Hs Hp].
  { intros agent _. simpl. split; apply not_elem_of_nil. }
  simpl in Hq, Hw, Hb, Hs, Hp. unfold Pipeline.trace_of.
  destruct (AgentFabric.loop_trace _) as [tq tw tb ts tp].
  simpl in *. by subst.
Qed.

Lemma handle_request_trace_witness :
  AgentFabric.trace
    (AgentFabric.handle_request Scenario.billing_is_down
       (Scenario.desk Scenario.wake_all) Scenario.question)
  = Pipeline.trace_of Scenario.billing_is_down
      (Scenario.desk Scenario.wake_all) Scenario.question
      (AgentFabric.gatekeeper_strategy (Scenario.desk Scenario.wake_all)
         Scenario.question
         (AgentFabric._agents (Scenario.desk Scenario.wake_all))).
Proof.
  apply (handle_request_trace Scenario.billing_is_down
           (Scenario.desk Scenario.wake_all) Scenario.question).
  - vm_compute. discriminate.
  - vm_compute. apply NoDup_cons. split.
    + intros Hin. apply list_elem_of_singleton in Hin. discriminate.
    + apply NoDup_singleton.
Defined.

(** X11. When the selected agents bear pairwise distinct ids, the response
    can be rebuilt from the trace: it is the join of the labeled partial
    results, in the order of the mapping. *)
Theorem response_from_trace (generate : string -> option string)
  (self : AgentFabric.t) (q : string) :
  AgentFabric.gatekeeper_strategy self q (AgentFabric._agents self) <> [] ->
  NoDup (map Agent.id
           (AgentFabric.gatekeeper_strategy self q
              (AgentFabric._agents self))) ->
  let out := AgentFabric.handle_request generate self q in
  AgentFabric.response out
  = Py.join (Py.nl +:+ Py.nl)
      (map (fun entry => AgentFabric.contribution entry.1 entry.2)
           (AgentFabric.partial_results (AgentFabric.trace out))).
Proof.
  intros Hne Hnodup. cbv zeta.
  rewrite (handle_request_nonempty generate self q _ eq_refl Hne).
  cbv zeta. cbn [AgentFabric.trace AgentFabric.response].
  rewrite loop_partial_results_list.
  match goal with
  | |- context [AgentFabric.loop_trace (fold_left ?f ?l ?st)] =>
      pose proof (loop_distinct_ids generate self q l st Hnodup) as Hbody
  end.
  cbv zeta in Hbody. destruct Hbody as [_ Hp].
  { intros agent _. simpl. split; apply not_elem_of_nil. }
  rewrite Hp. simpl. by rewrite map_map.
Qed.

Lemma response_from_trace_witness :
  AgentFabric.response
    (AgentFabric.handle_request Scenario.billing_is_down
       (Scenario.desk Scenario.wake_all) Scenario.question)
  = Py.join (Py.nl +:+ Py.nl)
      (map (fun entry => AgentFabric.contribution entry.1 entry.2)
           (AgentFabric.partial_results
              (AgentFabric.trace
                 (AgentFabric.handle_request Scenario.billing_is_down
                    (Scenario.desk Scenario.wake_all) Scenario.question)))).
Proof.
  apply (response_from_trace Scenario.billing_is_down
           (Scenario.desk Scenario.wake_all) Scenario.question).
  - vm_compute. discriminate.
  - vm_compute. apply NoDup_cons. split.
    + intros Hin. apply list_elem_of_singleton in Hin. discriminate.
    + apply NoDup_singleton.
Defined.

(** X12. Whatever the selection, the two mappings of the trace have the
    same keys in the same order, no key twice, and the keys are the ids of
    the selected agents. *)
Theorem trace_keys (generate : string -> option string)
  (self : AgentFabric.t) (q : string) :
  let tr := AgentFabric.trace (AgentFabric.handle_request generate self q) in
  Py.keys (AgentFabric.slices_per_agent tr)
  = Py.keys (AgentFabric.partial_results tr) /\
  NoDup (Py.keys (AgentFabric.slices_per_agent tr)) /\
  (forall k,
     k ∈ Py.keys (AgentFabric.slices_per_agent tr) <->
     k ∈ map Agent.id
           (AgentFabric.gatekeeper_strategy self q
              (AgentFabric._agents self))).
Proof.
  cbv zeta.
  destruct (AgentFabric.gatekeeper_strategy self q (AgentFabric._agents self))
    as [| agent woken] eqn:Hwoken.
  - unfold AgentFabric.handle_request. rewrite Hwoken. simpl.
    split; [done |]. split; [apply NoDup_nil_2 | done].
  - rewrite (handle_request_nonempty generate self q _ Hwoken) by done.
    cbv zeta. cbn [AgentFabric.trace].
    match goal with
    | |- context [AgentFabric.loop_trace (fold_left ?f ?l ?st)] =>
        pose proof (loop_keys generate self q l st eq_refl) as Hkeys
    end.
    cbv zeta in Hkeys. destruct Hkeys as (Hk & Hd & Hmem).
    { apply NoDup_nil_2. }
    split; [done |]. split; [done |].
    intros k. rewrite Hmem. simpl. rewrite elem_of_nil. tauto.
Qed.

(** X14. Every slice a trace holds comes from a selected agent with that id
    and from a registered vault the agent lists: it is what [get_slice]
    returns on that vault for the beacons of the agent with the default
    limit, and so holds 5 claims at most. *)
Theorem traced_slice_origin (generate : string -> option string)
  (self : AgentFabric.t) (q : string) (agent_id vault_id : string)
  (slices : Py.odict (list Claim.t)) (claims : list Claim.t) :
  Py.get (AgentFabric.slices_per_agent
            (AgentFabric.trace (AgentFabric.handle_request generate self q)))
         agent_id = Some slices ->
  Py.get slices vault_id = Some claims ->
  length claims <= 5 /\
  exists agent vault,
    agent ∈ AgentFabric.gatekeeper_strategy self q (AgentFabric._agents self)
    /\ Agent.id agent = agent_id
    /\ vault_id ∈ Agent.vault_ids agent
    /\ Py.get (AgentFabric._vaults self) vault_id = Some vault
    /\ claims
       = (MemoryVault.get_slice vault
            (AgentFabric.slice_augmentation_strategy self agent
               (AgentFabric.beacon_strategy self q)) 5).1.
Proof.
  intros Hslices Hclaims.
  destruct (AgentFabric.gatekeeper_strategy self q (AgentFabric._agents self))
    as [| first woken] eqn:Hwoken.
  { unfold AgentFabric.handle_request in Hslices. rewrite Hwoken in Hslices.
    discriminate Hslices. }
  rewrite (handle_request_nonempty generate self q _ Hwoken) in Hslices
    by done.
  cbv zeta in Hslices. cbn [AgentFabric.trace] in Hslices.
  apply loop_slices_origin in Hslices as [Hnone | (agent & Hin & Hid & ->)];
    [discriminate Hnone |].
  unfold Pipeline.slices_of, AgentFabric.collect_slices in Hclaims.
  apply fold_slice_step_get in Hclaims
    as [Hnone | (Hvid & vault & Hvault & ->)]; [discriminate Hnone |].
  split.
  - apply (slice_from_length 5). lia.
  - exists agent, vault. by repeat split.
Qed.

Lemma traced_slice_origin_witness :
  length [Scenario.invoice; Scenario.declined] <= 5 /\
  exists agent vault,
    agent ∈ AgentFabric.gatekeeper_strategy (Scenario.desk Scenario.wake_all)
              Scenario.question
              (AgentFabric._agents (Scenario.desk Scenario.wake_all))
    /\ Agent.id agent = "A"
    /\ "V1" ∈ Agent.vault_ids agent
    /\ Py.get (AgentFabric._vaults (Scenario.desk Scenario.wake_all)) "V1"
       = Some vault
    /\ [Scenario.invoice; Scenario.declined]
       = (MemoryVault.get_slice vault
            (AgentFabric.slice_augmentation_strategy
               (Scenario.desk Scenario.wake_all) agent
               (AgentFabric.beacon_strategy (Scenario.desk Scenario.wake_all)
                  Scenario.question)) 5).1.
Proof.
  apply (traced_slice_origin Scenario.billing_is_down
           (Scenario.desk Scenario.wake_all) Scenario.question "A" "V1"
           [("V1", [Scenario.invoice; Scenario.declined])]).
  - reflexivity.
  - reflexivity.
Defined.

Section UnregisteredFacts.
Implicit Types (vaults : Py.odict MemoryVault.t).

Lemma fold_slice_step_unregistered vaults (agent_beacons : Beacons)
  (vault_ids : list string)
  (acc : Py.odict (list Claim.t) * list AgentFabric.Call) :
  (forall vault_id, vault_id ∈ vault_ids ->
     Py.contains vaults vault_id = false) ->
  fold_left (AgentFabric.slice_step vaults agent_beacons) vault_ids acc = acc.
Proof.
  revert acc. induction vault_ids as [| v vault_ids IH]; intros acc Hnone.
  - done.
  - simpl. unfold AgentFabric.slice_step at 2.
    pose proof (Hnone v ltac:(by left)) as Hv. unfold Py.contains in Hv.
    destruct (Py.get vaults v); [discriminate Hv |].
    apply IH. intros vault_id Hin. apply Hnone. by right.
Qed.
End UnregisteredFacts.

(** X15. An agent none of whose vault ids is registered, or that lists no
    vault, collects an empty slice mapping, and is asked all the same, with
    the marker of missing information for context. *)
Theorem agent_without_registered_vault (self : AgentFabric.t) (q : string)
  (agent : Agent.t) :
  (forall vault_id, vault_id ∈ Agent.vault_ids agent ->
     Py.contains (AgentFabric._vaults self) vault_id = false) ->
  Pipeline.slices_of self q agent = [] /\
  Pipeline.prompt_for self q agent = Agent.prompt_of agent q [] /\
  Agent.context_of (Pipeline.slices_of self q agent) = Agent.no_information.
Proof.
  intros Hnone.
  assert (Hempty : Pipeline.slices_of self q agent = []).
  { unfold Pipeline.slices_of, AgentFabric.collect_slices.
    by rewrite fold_slice_step_unregistered. }
  unfold Pipeline.prompt_for. by rewrite Hempty.
Qed.

Lemma agent_without_registered_vault_witness :
  Pipeline.slices_of (Scenario.desk Scenario.wake_all) Scenario.question
    (Agent.mk "C" "You answer returns questions." ["V2"; "V9"]) = [] /\
  Pipeline.prompt_for (Scenario.desk Scenario.wake_all) Scenario.question
    (Agent.mk "C" "You answer returns questions." ["V2"; "V9"])
  = Agent.prompt_of
      (Agent.mk "C" "You answer returns questions." ["V2"; "V9"])
      Scenario.question [] /\
  Agent.context_of
    (Pipeline.slices_of (Scenario.desk Scenario.wake_all) Scenario.question
       (Agent.mk "C" "You answer returns questions." ["V2"; "V9"]))
  = Agent.no_information.
Proof.
  apply (agent_without_registered_vault (Scenario.desk Scenario.wake_all)
           Scenario.question
           (Agent.mk "C" "You answer returns questions." ["V2"; "V9"])).
  intros vault_id Hin. simpl in Hin.
  apply elem_of_cons in Hin as [-> | Hin]; [reflexivity |].
  apply elem_of_cons in Hin as [-> | Hin]; [reflexivity |].
  by apply elem_of_nil in Hin.
Defined.

(** X16. Of two registrations under one id, the second alone counts: the
    fabric is the one the second registration alone gives, entry order
    included. Likewise for vaults. *)
Theorem register_twice (self : AgentFabric.t) (agent agent' : Agent.t)
  (vault vault' : MemoryVault.t) :
  Agent.id agent = Agent.id agent' ->
  MemoryVault.id vault = MemoryVault.id vault' ->
  AgentFabric.register_agent (AgentFabric.register_agent self agent) agent'
  = AgentFabric.register_agent self agent' /\
  AgentFabric.register_vault (AgentFabric.register_vault self vault) vault'
  = AgentFabric.register_vault self vault'.
Proof.
  intros Ha Hv. unfold AgentFabric.register_agent, AgentFabric.register_vault.
  simpl. rewrite Ha, Hv. by rewrite !set_set.
Qed.

Lemma register_twice_witness :
  AgentFabric.register_agent
    (AgentFabric.register_agent (Scenario.desk Scenario.wake_all) Scenario.A)
    Scenario.A'
  = AgentFabric.register_agent (Scenario.desk Scenario.wake_all) Scenario.A'
  /\
  AgentFabric.register_vault
    (AgentFabric.register_vault (Scenario.desk Scenario.wake_all) Scenario.V)
    (MemoryVault.init "V1")
  = AgentFabric.register_vault (Scenario.desk Scenario.wake_all)
      (MemoryVault.init "V1").
Proof.
  apply (register_twice (Scenario.desk Scenario.wake_all) Scenario.A
           Scenario.A' Scenario.V (MemoryVault.init "V1")); reflexivity.
Defined.

(** ** visualize_last_request: the name of the diagram *)

Section NameFacts.
Implicit Types (s : string) (c : ascii) (b : bool).

Lemma underscore_not_alnum c :
  Py.isalnum c = true -> Spec.is_underscore c = false.
Proof.
  intros Hc. unfold Spec.is_underscore. apply bool_decide_eq_false.
  intros ->. by vm_compute in Hc.
Qed.

Lemma is_underscore_underscore : Spec.is_underscore Py.underscore = true.
Proof. reflexivity. Qed.

Lemma sub_runs_chars b s :
  Spec.all_chars (fun c => Py.isalnum c || Spec.is_underscore c)
                 (Py.sub_runs b s) = true.
Proof.
  revert b. induction s as [| c s IH]; intros b; simpl; [done |].
  destruct (Py.isalnum c) eqn:Hc.
  - simpl. by rewrite Hc, IH.
  - destruct b; [apply IH |]. simpl. by rewrite IH.
Qed.

Lemma sub_runs_single b s :
  Spec.no_neighbours Spec.is_underscore b (Py.sub_runs b s) = true.
Proof.
  revert b. induction s as [| c s IH]; intros b; simpl; [done |].
  destruct (Py.isalnum c) eqn:Hc.
  - simpl. rewrite (underscore_not_alnum c Hc), andb_false_r. simpl.
    apply IH.
  - destruct b; [apply IH |]. simpl. apply IH.
Qed.

Lemma take_chars_all (P : ascii -> bool) (n : nat) s :
  Spec.all_chars P s = true -> Spec.all_chars P (Py.take_chars n s) = true.
Proof.
  revert n. induction s as [| c s IH]; intros [| n]; simpl; try done.
  intros [Hc Hs]%andb_true_iff. by rewrite Hc, IH.
Qed.

Lemma take_chars_single (P : ascii -> bool) b (n : nat) s :
  Spec.no_neighbours P b s = true ->
  Spec.no_neighbours P b (Py.take_chars n s) = true.
Proof.
  revert n b. induction s as [| c s IH]; intros [| n] b; simpl; try done.
  intros [Hc Hs]%andb_true_iff. by rewrite Hc, IH.
Qed.

Lemma take_chars_length (n : nat) s : String.length (Py.take_chars n s) <= n.
Proof.
  revert n. induction s as [| c s IH]; intros [| n]; simpl; try lia.
  specialize (IH n). lia.
Qed.

Lemma take_chars_short (n : nat) s :
  String.length s <= n -> Py.take_chars n s = s.
Proof.
  revert n. induction s as [| c s IH]; intros [| n]; simpl; try done.
  - lia.
  - intros Hlen. f_equal. apply IH. lia.
Qed.

(** The substitution leaves a name of alphanumeric characters and single
    underscores as it is. *)
Lemma sub_runs_clean b s :
  Spec.all_chars (fun c => Py.isalnum c || Spec.is_underscore c) s = true ->
  Spec.no_neighbours Spec.is_underscore b s = true ->
  Py.sub_runs b s = s.
Proof.
  revert b. induction s as [| c s IH]; intros b; simpl; [done |].
  intros [Hc Hs]%andb_true_iff [Hb Hn]%andb_true_iff.
  destruct (Py.isalnum c) eqn:Halnum.
  - f_equal. apply IH; [done |].
    by rewrite (underscore_not_alnum c Halnum) in Hn.
  - simpl in Hc. rewrite Hc in Hb, Hn. rewrite andb_true_r in Hb.
    apply negb_true_iff in Hb. subst b.
    unfold Spec.is_underscore in Hc. apply bool_decide_eq_true in Hc.
    subst c. f_equal. by apply IH.
Qed.

Lemma safe_filename_clean (q : string) :
  Spec.clean_name (AgentFabric.safe_filename q) = true.
Proof.
  unfold Spec.clean_name, AgentFabric.safe_filename, Py.sub_nonword.
  rewrite take_chars_all by apply sub_runs_chars.
  by rewrite take_chars_single by apply sub_runs_single.
Qed.

Lemma safe_filename_fixed s :
  Spec.clean_name s = true -> String.length s <= 50 ->
  AgentFabric.safe_filename s = s.
Proof.
  unfold Spec.clean_name. intros [Hc Hn]%andb_true_iff Hlen.
  unfold AgentFabric.safe_filename, Py.sub_nonword.
  rewrite sub_runs_clean by done. by apply take_chars_short.
Qed.
End NameFacts.

(** X17. The name of the diagram is safe for a file system: at most 50
    characters, all of them alphanumeric or underscores, and no two
    underscores in a row. *)
Theorem safe_filename_shape (q : string) :
  String.length (AgentFabric.safe_filename q) <= 50 /\
  Spec.all_chars (fun c => Py.isalnum c || Spec.is_underscore c)
                 (AgentFabric.safe_filename q) = true /\
  Spec.no_neighbours Spec.is_underscore false (AgentFabric.safe_filename q)
  = true.
Proof.
  split; [apply take_chars_length |].
  by apply andb_true_iff, safe_filename_clean.
Qed.

(** X18. A query that is such a name already, of 50 characters at most, is
    the name of its own diagram. *)
Theorem safe_filename_keeps_names (q : string) :
  Spec.clean_name q = true ->
  String.length q <= 50 ->
  AgentFabric.safe_filename q = q.
Proof. apply safe_filename_fixed. Qed.

Lemma safe_filename_keeps_names_witness :
  AgentFabric.safe_filename "order_42_status" = "order_42_status".
Proof.
  apply (safe_filename_keeps_names "order_42_status").
  - reflexivity.
  - vm_compute. lia.
Defined.

(** X19. Sanitizing is idempotent: the name of a name is that name. *)
Theorem safe_filename_idempotent (q : string) :
  AgentFabric.safe_filename (AgentFabric.safe_filename q)
  = AgentFabric.safe_filename q.
Proof.
  apply safe_filename_fixed; [apply safe_filename_clean |].
  apply take_chars_length.
Qed.

(** X20. After a request the fabric draws the diagram of that request,
    under the name made from its query, also when nobody was selected;
    but it declines after a request whose query is empty, as it does
    before the first request. *)
Theorem visualize_after_request (generate : string -> option string)
  (self : AgentFabric.t) (q : string) :
  let out := AgentFabric.handle_request generate self q in
  AgentFabric.visualize_last_request (AgentFabric.fabric out)
  = match q with
    | EmptyString => None
    | String _ _ =>
        Some (AgentFabric.trace out,
              "flow_" +:+ AgentFabric.safe_filename q)
    end /\
  forall gatekeeper beacon augmentation,
    AgentFabric.visualize_last_request
      (AgentFabric.init gatekeeper beacon augmentation) = None.
Proof.
  cbv zeta. split; [| done].
  assert (Hlast :
    AgentFabric.last_trace
      (AgentFabric.fabric (AgentFabric.handle_request generate self q))
    = Some (AgentFabric.trace (AgentFabric.handle_request generate self q))
    /\ AgentFabric.query
         (AgentFabric.trace (AgentFabric.handle_request generate self q)) = q).
  { destruct (AgentFabric.gatekeeper_strategy self q
                (AgentFabric._agents self)) as [| agent woken] eqn:Hwoken.
    - unfold AgentFabric.handle_request. rewrite Hwoken. by simpl.
    - rewrite (handle_request_nonempty generate self q _ Hwoken) by done.
      cbv zeta. cbn [AgentFabric.fabric AgentFabric.trace]. split; [done |].
      apply (loop_trace_header generate self q). }
  destruct Hlast as [Hlast Hquery].
  unfold AgentFabric.visualize_last_request. rewrite Hlast, Hquery.
  by destruct q.
Qed.
